(** * jupyter_console/ptshell.py: the prompt_toolkit front end of the console

    A shallow embedding of [IPythonPTCompleter] and [PTInteractiveShell]
    (src/jupyter_console/ptshell.py) and the properties of the interactive
    loop, the Enter binding, the history preload and the completion adaptor.

    Text is modelled as [string] (characters with code points below 256);
    Python integers as [Z]; positions inside a text as [nat].  Calls into
    the collaborators of the file (the kernel client, the input splitter, the completion engine, the terminal) are
    recorded in a chronological log of [Effect]s, and what the collaborators
    answer is an input of the model. *)

From Stdlib Require Import String Ascii List ZArith Bool Lia DecimalString.
Import ListNotations.
Local Open Scope string_scope.
Local Open Scope list_scope.

(** ** Python text primitives used by the file *)

Module Py.

(** The line separator, ['\n']. *)
Definition nl_char : ascii := Ascii.ascii_of_nat 10.
Definition nl : string := String nl_char "".

(** [str.isspace] on one character, for the code points below 256:
    TAB..CR, FS..US, SPACE, NEL and NBSP. *)
Definition isspace_char (c : ascii) : bool :=
  let n := Ascii.nat_of_ascii c in
  (((9 <=? n) && (n <=? 13)) || ((28 <=? n) && (n <=? 32))
   || (n =? 133) || (n =? 160))%nat.

(** Truth value of a text: the empty text is false. *)
Definition truthy (s : string) : bool :=
  match s with
  | EmptyString => false
  | String _ _ => true
  end.

(** [s.rstrip()] *)
Fixpoint rstrip (s : string) : string :=
  match s with
  | EmptyString => EmptyString
  | String c s' =>
      let r := rstrip s' in
      if isspace_char c && negb (truthy r) then EmptyString else String c r
  end.

(** [s.lstrip()] *)
Fixpoint lstrip (s : string) : string :=
  match s with
  | EmptyString => EmptyString
  | String c s' => if isspace_char c then lstrip s' else s
  end.

(** [s.strip()] *)
Definition strip (s : string) : string := rstrip (lstrip s).

(** [s.isspace()]: every character is white space and there is one. *)
Fixpoint all_space (s : string) : bool :=
  match s with
  | EmptyString => true
  | String c s' => isspace_char c && all_space s'
  end.

Definition isspace (s : string) : bool := truthy s && all_space s.

(** [' ' * n]; a count below one gives the empty text. *)
Definition spaces (n : Z) : string :=
  string_of_list_ascii (repeat " "%char (Z.to_nat n)).

(** [s[:n]] and [s[n:]] for [0 <= n]. *)
Fixpoint take (n : nat) (s : string) : string :=
  match n, s with
  | S n', String c s' => String c (take n' s')
  | _, _ => EmptyString
  end.

Fixpoint drop (n : nat) (s : string) : string :=
  match n, s with
  | S n', String _ s' => drop n' s'
  | _, _ => s
  end.

(** [s.split('\n')]: never empty. *)
Fixpoint split_lines (s : string) : list string :=
  match s with
  | EmptyString => [EmptyString]
  | String c s' =>
      if Ascii.eqb c nl_char then EmptyString :: split_lines s'
      else match split_lines s' with
           | l :: ls => String c l :: ls
           | [] => [String c EmptyString]
           end
  end.

(** [x or 0] on an optional integer. *)
Definition or_zero (x : option Z) : Z :=
  match x with
  | Some n => n          (* [0 or 0] is [0] as well *)
  | None => 0%Z
  end.

End Py.

(** ** History preload, [init_prompt_toolkit_cli] lines 112-120 *)

Module History.

(** A row of [history_manager.get_tail]: session, line number, cell. *)
Definition Row : Type := (Z * Z * string)%type.

(** [InMemoryHistory.append] *)
Definition append (history : list string) (cell : string) : list string :=
  history ++ [cell].

(** One pass of the [for] loop body.  [last_cell] is read, and the body
    has no assignment to it. *)
Definition preload_step (last_cell : string) (history : list string)
           (row : Row) : list string :=
  let '(_, _, cell) := row in
  let cell := Py.rstrip cell in
  if Py.truthy cell && negb (String.eqb cell last_cell)
  then append history cell
  else history.

(** The loop over the rows, from an empty [InMemoryHistory] and
    [last_cell = u""]. *)
Definition preload (tail : list Row) : list string :=
  let history := [] in
  let last_cell := "" in
  fold_left (preload_step last_cell) tail history.

(** The rows carrying the given cells, in one session. *)
Definition rows_of (cells : list string) : list Row :=
  map (fun cell => (1%Z, 0%Z, cell)) cells.

(** No two neighbours of the list are equal. *)
Fixpoint no_adjacent_dup (l : list string) : bool :=
  match l with
  | [] => true
  | x :: tl =>
      match tl with
      | [] => true
      | y :: _ => negb (String.eqb x y) && no_adjacent_dup tl
      end
  end.

End History.

(** ** The terminal library's document, as the file reads it *)

Module Document.

(** [Document(text, cursor_position)] *)
Record t : Type := make { text : string; cursor_position : nat }.

Definition text_before_cursor (d : t) : string :=
  Py.take (cursor_position d) (text d).

Definition text_after_cursor (d : t) : string :=
  Py.drop (cursor_position d) (text d).

Definition lines (d : t) : list string := Py.split_lines (text d).

Definition line_count (d : t) : Z := Z.of_nat (length (lines d)).

(** Row of the cursor, from 0: the line separators before the cursor. *)
Definition cursor_position_row (d : t) : Z :=
  (Z.of_nat (length (Py.split_lines (text_before_cursor d))) - 1)%Z.

Definition on_last_line (d : t) : bool :=
  (cursor_position_row d =? line_count d - 1)%Z.

(** Lines at the end of the text that are empty or white space only. *)
Fixpoint count_blank_prefix (ls : list string) : nat :=
  match ls with
  | [] => 0
  | l :: tl =>
      if negb (Py.truthy l) || Py.isspace l
      then S (count_blank_prefix tl) else 0
  end.

Definition empty_line_count_at_the_end (d : t) : Z :=
  Z.of_nat (count_blank_prefix (rev (lines d))).

(** The part of the cursor's line before and after the cursor. *)
Definition current_line_before_cursor (d : t) : string :=
  last (Py.split_lines (text_before_cursor d)) "".

Definition current_line_after_cursor (d : t) : string :=
  hd "" (Py.split_lines (text_after_cursor d)).

Definition current_line (d : t) : string :=
  current_line_before_cursor d ++ current_line_after_cursor d.

Definition cursor_position_col (d : t) : nat :=
  String.length (current_line_before_cursor d).

(** The white space in the left margin of the line of the cursor:
    [current_line[:len(current_line) - len(current_line.lstrip())]]. *)
Definition leading_whitespace_in_current_line (d : t) : string :=
  let line := current_line d in
  Py.take (String.length line - String.length (Py.lstrip line)) line.

End Document.

(** ** [IPythonPTCompleter], lines 29-44 *)

Module Completer.

(** [Completion(text, start_position=...)] *)
Record Completion : Type :=
  mkCompletion { completion_text : string; start_position : Z }.

(** A call [ipy_completer.complete(line_buffer=..., cursor_pos=...)]. *)
Record EngineCall : Type :=
  mkCall { line_buffer : string; cursor_pos : nat }.

(** What the completion engine answers: the text it used and the matches. *)
Definition Engine : Type := string -> nat -> string * list string.

(** [get_completions], run to exhaustion: the calls made to the engine and
    the completions yielded, in order. *)
Definition get_completions (ipy_completer : Engine)
           (document : Document.t) : list EngineCall * list Completion :=
  if negb (Py.truthy (Py.strip (Document.current_line document)))
  then ([], [])
  else
    let line := Document.current_line document in
    let col := Document.cursor_position_col document in
    let '(used, matches) := ipy_completer line col in
    let start_pos := (- Z.of_nat (String.length used))%Z in
    ([mkCall line col],
     map (fun m => mkCompletion m start_pos) matches).

End Completer.

(** ** The editing buffer and the command line interface of the library *)

Module Cli.

(** [Buffer.accept_action]: [is_returnable] is whether it has a handler. *)
Inductive AcceptAction : Type := IGNORE | RETURN_DOCUMENT.

Definition is_returnable (a : AcceptAction) : bool :=
  match a with
  | RETURN_DOCUMENT => true
  | IGNORE => false
  end.

Record Buffer : Type :=
  mkBuffer { document : Document.t; accept_action : AcceptAction }.

(** [CommandLineInterface]: the current buffer and the value [run] is to
    return once it is set. *)
Record t : Type :=
  mkCli { current_buffer : Buffer; return_value : option Document.t }.

(** [b.insert_text(data)]: at the cursor, which moves past the text. *)
Definition insert_text (data : string) (b : Buffer) : Buffer :=
  let d := document b in
  mkBuffer
    (Document.make
       (Document.text_before_cursor d ++ data ++ Document.text_after_cursor d)
       (Document.cursor_position d + String.length data))
    (accept_action b).

(** [b.newline()] of the library, with its default [copy_margin=True]:
    the line separator and a copy of the left margin of the line of the
    cursor, inserted at the cursor. *)
Definition newline (b : Buffer) : Buffer :=
  insert_text
    (Py.nl ++ Document.leading_whitespace_in_current_line (document b)) b.

(** [b.reset()]: an empty document. *)
Definition reset_buffer (b : Buffer) : Buffer :=
  mkBuffer (Document.make "" 0) (accept_action b).

(** [b.text = value]: the cursor stays inside the new text. *)
Definition set_text (value : string) (b : Buffer) : Buffer :=
  mkBuffer
    (Document.make value
       (Nat.min (Document.cursor_position (document b)) (String.length value)))
    (accept_action b).

Definition with_buffer (b : Buffer) (cli : t) : t :=
  mkCli b (return_value cli).

(** [cli.set_return_value(document)] *)
Definition set_return_value (d : Document.t) (cli : t) : t :=
  mkCli (current_buffer cli) (Some d).

(** [b.accept_action.validate_and_handle(cli, b)].  The application is
    created without a validator (lines 145-154), so validation passes and
    the handler of the action runs: [RETURN_DOCUMENT] hands the document
    of the buffer to the interface. *)
Definition validate_and_handle (cli : t) (b : Buffer) : t :=
  match accept_action b with
  | RETURN_DOCUMENT => set_return_value (document b) cli
  | IGNORE => cli
  end.

(** What [run] does before it waits for a key: no return value, an empty
    current buffer. *)
Definition reset (cli : t) : t :=
  mkCli (reset_buffer (current_buffer cli)) None.

(** The interface as [create_prompt_application] builds it: an empty
    buffer whose accept action returns the document. *)
Definition fresh : t := mkCli (mkBuffer (Document.make "" 0) RETURN_DOCUMENT) None.

End Cli.

(** ** [PTInteractiveShell] *)

Module Shell.

(** Verdict of [input_splitter.check_complete]. *)
Inductive Status : Type := Complete | Incomplete | Invalid.

Definition is_incomplete (s : Status) : bool :=
  match s with
  | Incomplete => true
  | _ => false
  end.

(** Calls that leave the file, in the order they are made. *)
Inductive Effect : Type :=
| WaitForKernel
| Stdout (s : string)
| Stderr (s : string)
| CliRun
| CheckComplete (text : string)
| AskYesNo (prompt default interrupt : string)
| RunCell (cell : string) (store_history : bool).

(** [print(s, end=e)] writes [s] and then [e]. *)
Definition print (s e : string) : string := s ++ e.

(** The dispatches of a log: the arguments of its [run_cell] calls. *)
Fixpoint dispatches (log : list Effect) : list (string * bool) :=
  match log with
  | [] => []
  | RunCell cell store :: tl => (cell, store) :: dispatches tl
  | _ :: tl => dispatches tl
  end.

(** The completeness checks of a log. *)
Fixpoint checks (log : list Effect) : list string :=
  match log with
  | [] => []
  | CheckComplete text :: tl => text :: checks tl
  | _ :: tl => checks tl
  end.

(** The attributes of [self] the file reads and writes. *)
Record t : Type :=
  mkShell { keep_running : bool;
            rl_next_input : option string;
            pt_cli : Cli.t }.

(** The shell after [__init__]. *)
Definition init : t := mkShell true None Cli.fresh.

(** [cast_unicode_py2]: text stays as it is. *)
Definition cast_unicode_py2 (s : string) : string := s.

(** [ask_exit], lines 165-166 *)
Definition ask_exit (sh : t) : t :=
  mkShell false (rl_next_input sh) (pt_cli sh).

(** [pre_prompt], lines 170-173 *)
Definition pre_prompt (sh : t) : t :=
  match rl_next_input sh with
  | Some s =>
      if Py.truthy s
      then mkShell (keep_running sh) None
             (Cli.with_buffer
                (Cli.set_text (cast_unicode_py2 s)
                   (Cli.current_buffer (pt_cli sh)))
                (pt_cli sh))
      else sh
  | None => sh
  end.

(** The two ways [pt_cli.run] ends. *)
Inductive ReadResult : Type :=
| Returned (document : option Document.t)
| RaisedEOF.

(** What the user and the library do during a read. *)
Inductive UIEvent : Type :=
| Enter                        (* Keys.ControlJ, the filter of the binding holds *)
| Interrupt                    (* Keys.ControlC *)
| Edit (d : Document.t)        (* a key the library handles: the buffer holds [d] *)
| ReturnNone                   (* the library ends the read with no value *)
| EndOfInput (confirm : bool). (* EOFError, and the answer to the question *)

(** One run of the loop: the shell, whether it is inside a read, the log. *)
Inductive Phase : Type := Prompting | Exiting.

Record Run : Type :=
  mkRun { shell : t; phase : Phase; log : list Effect }.

Section Collaborators.

(** [self.input_splitter.check_complete] *)
Variable check_complete : string -> Status * option Z.

(** [Buffer.newline] of the library; [Cli.newline] is what it does. *)
Variable newline : Cli.Buffer -> Cli.Buffer.

(** What [run_cell] leaves in the attributes of the shell, given the
    calls so far (the kernel may ask to exit or set the next input). *)
Variable run_cell : list Effect -> t -> t.

(** The [Keys.ControlJ] binding, lines 93-106: the interface after the
    binding and the calls it made. *)
Definition enter_binding (cli : Cli.t) : Cli.t * list Effect :=
  let b := Cli.current_buffer cli in
  let d := Cli.document b in
  if negb (Document.on_last_line d
           || (Document.line_count d - Document.empty_line_count_at_the_end d
               <=? Document.cursor_position_row d)%Z)
  then (Cli.with_buffer (newline b) cli, [])
  else
    let '(status, indent) := check_complete (Document.text d) in
    let calls := [CheckComplete (Document.text d)] in
    if negb (is_incomplete status) && Cli.is_returnable (Cli.accept_action b)
    then (Cli.validate_and_handle cli b, calls)
    else (Cli.with_buffer
            (Cli.insert_text (Py.nl ++ Py.spaces (Py.or_zero indent)) b) cli,
          calls).

(** The [Keys.ControlC] binding, lines 108-110. *)
Definition interrupt_binding (cli : Cli.t) : Cli.t :=
  Cli.with_buffer (Cli.reset_buffer (Cli.current_buffer cli)) cli.

Definition with_cli (cli : Cli.t) (sh : t) : t :=
  mkShell (keep_running sh) (rl_next_input sh) cli.

(** Head of [while self.keep_running], lines 183-187, up to the point
    where [pt_cli.run(pre_run=self.pre_prompt)] waits for a key. *)
Definition loop_head (sh : t) (l : list Effect) : Run :=
  if keep_running sh
  then mkRun (pre_prompt (with_cli (Cli.reset (pt_cli sh)) sh))
             Prompting
             (l ++ [Stdout (print Py.nl ""); CliRun])
  else mkRun sh Exiting l.

(** The [except EOFError] and [else] branches, lines 188-194. *)
Definition after_read (res : ReadResult) (confirm : bool)
           (sh : t) (l : list Effect) : t * list Effect :=
  match res with
  | RaisedEOF =>
      let l := l ++ [AskYesNo "Do you really want to exit ([y]/n)?" "y" "n"] in
      if confirm then (ask_exit sh, l) else (sh, l)
  | Returned document =>
      match document with          (* [if document:], no document is false *)
      | Some d =>
          let l := l ++ [RunCell (Document.text d) true] in
          (run_cell l sh, l)
      | None => (sh, l)
      end
  end.

(** The rest of one pass of the loop, then the head of the next. *)
Definition finish_read (res : ReadResult) (confirm : bool)
           (sh : t) (l : list Effect) : Run :=
  let '(sh', l') := after_read res confirm sh l in
  loop_head sh' l'.

(** One event of the terminal. *)
Definition step (r : Run) (ev : UIEvent) : Run :=
  match phase r with
  | Exiting => r
  | Prompting =>
      let sh := shell r in
      match ev with
      | Enter =>
          let '(cli', calls) := enter_binding (pt_cli sh) in
          match Cli.return_value cli' with
          | Some d =>
              finish_read (Returned (Some d)) false
                (with_cli cli' sh) (log r ++ calls)
          | None => mkRun (with_cli cli' sh) Prompting (log r ++ calls)
          end
      | Interrupt =>
          mkRun (with_cli (interrupt_binding (pt_cli sh)) sh) Prompting (log r)
      | Edit d =>
          mkRun (with_cli
                   (Cli.with_buffer
                      (Cli.mkBuffer d
                         (Cli.accept_action (Cli.current_buffer (pt_cli sh))))
                      (pt_cli sh)) sh)
                Prompting (log r)
      | ReturnNone => finish_read (Returned None) false sh (log r)
      | EndOfInput confirm => finish_read RaisedEOF confirm sh (log r)
      end
  end.

(** [interact], lines 175-194: [kernel_ready] is what [wait_for_kernel]
    answers, [events] is what happens at the terminal afterwards. *)
Definition interact (kernel_ready : bool) (events : list UIEvent)
           (sh : t) : Run :=
  let l := [WaitForKernel] in
  if negb kernel_ready
  then mkRun sh Exiting (l ++ [Stderr (print ("Kernel did not respond" ++ Py.nl) Py.nl)])
  else fold_left step events (loop_head sh l).

End Collaborators.

(** What holds whenever the loop is inside a read: the loop flag is set
    and the interface has no value to return yet. *)
Definition reading (r : Run) : Prop :=
  phase r = Prompting ->
  keep_running (shell r) = true
  /\ Cli.return_value (pt_cli (shell r)) = None.

(** The buffer and the document a run is editing. *)
Definition buffer_of (r : Run) : Cli.Buffer :=
  Cli.current_buffer (pt_cli (shell r)).

Definition document_of (r : Run) : Document.t :=
  Cli.document (buffer_of r).

(** [run_cell] leaves the accept action of the buffer alone: the kernel
    client does not touch the buffer of the interface. *)
Definition keeps_accept_action (run_cell : list Effect -> t -> t) : Prop :=
  forall (l : list Effect) (sh : t),
    Cli.accept_action (Cli.current_buffer (pt_cli (run_cell l sh)))
    = Cli.accept_action (Cli.current_buffer (pt_cli sh)).

(** The question [interact] asks on end of input. *)
Definition exit_question : Effect :=
  AskYesNo "Do you really want to exit ([y]/n)?" "y" "n".

End Shell.

(** ** Prompt tokens, lines 72-82 *)

Module Tokens.

(** A pygments token is the path of its names below [Token]:
    [Token.Name.Function] is [["Name"; "Function"]].  [Token.Number] and
    [Token.String] are the library's names for [Token.Literal.Number] and
    [Token.Literal.String]. *)
Definition Token : Type := list string.

Definition Prompt : Token := ["Prompt"].
Definition PromptNum : Token := ["PromptNum"].
Definition Number : Token := ["Literal"; "Number"].
Definition Operator : Token := ["Operator"].
Definition String_ : Token := ["Literal"; "String"].
Definition Name_Function : Token := ["Name"; "Function"].
Definition Name_Class : Token := ["Name"; "Class"].
Definition Name_Namespace : Token := ["Name"; "Namespace"].

Definition eq_dec : forall a b : Token, {a = b} + {a <> b} :=
  list_eq_dec string_dec.

(** [str(n)] for an integer. *)
Definition str (n : Z) : string := NilZero.string_of_int (Z.to_int n).

(** [get_prompt_tokens], lines 72-77 *)
Definition get_prompt_tokens (execution_count : Z) : list (Token * string) :=
  [ (Prompt, "In [");
    (PromptNum, str execution_count);
    (Prompt, "]: ") ].

(** [get_continuation_tokens], lines 79-82 *)
Definition get_continuation_tokens (width : Z) : list (Token * string) :=
  [ (Prompt, (Py.spaces (width - 2) ++ ": ")%string) ].

(** The text a list of tokens shows. *)
Definition shown (tokens : list (Token * string)) : string :=
  fold_right (fun t acc => (snd t ++ acc)%string) "" tokens.

End Tokens.

(** ** Style overrides, [init_prompt_toolkit_cli] lines 122-143 *)

Module Style.

(** A [dict] from tokens to style texts, in insertion order. *)
Definition Dict : Type := list (Tokens.Token * string).

(** [d.get(k)] *)
Fixpoint lookup (k : Tokens.Token) (d : Dict) : option string :=
  match d with
  | [] => None
  | (k', v) :: tl => if Tokens.eq_dec k k' then Some v else lookup k tl
  end.

(** [d[k] = v] *)
Fixpoint set_item (k : Tokens.Token) (v : string) (d : Dict) : Dict :=
  match d with
  | [] => [(k, v)]
  | (k', v') :: tl =>
      if Tokens.eq_dec k k' then (k, v) :: tl else (k', v') :: set_item k v tl
  end.

(** [d.update(other)] *)
Definition update (d other : Dict) : Dict :=
  fold_left (fun acc kv => set_item (fst kv) (snd kv) acc) other d.

(** The keys of a dict. *)
Definition keys (d : Dict) : list Tokens.Token := map fst d.

(** The tweaks of the default theme, lines 133-140. *)
Definition default_theme_tweaks : Dict :=
  [ (Tokens.Number, "#007700");
    (Tokens.Operator, "noinherit");
    (Tokens.String_, "#BB6622");
    (Tokens.Name_Function, "#2080D0");
    (Tokens.Name_Class, "bold #2080D0");
    (Tokens.Name_Namespace, "bold #2080D0") ].

(** Lines 122-141: the name given to [get_style_by_name] and the
    [style_overrides] handed to [PygmentsStyle.from_defaults]. *)
Definition style_setup (highlighting_style : string)
           (highlighting_style_overrides : Dict) : string * Dict :=
  let style_overrides :=
    [ (Tokens.Prompt, "#009900"); (Tokens.PromptNum, "#00ff00 bold") ] in
  let '(style_name, style_overrides) :=
    if Py.truthy highlighting_style
    then (highlighting_style, style_overrides)
    else ("default", update style_overrides default_theme_tweaks) in
  let style_overrides := update style_overrides highlighting_style_overrides in
  (style_name, style_overrides).

End Style.

(** ** Measures of texts, documents, event lists and logs *)

Module Measure.

(** Whether a text has a line separator. *)
Fixpoint contains_nl (s : string) : bool :=
  match s with
  | EmptyString => false
  | String c s' => Ascii.eqb c Py.nl_char || contains_nl s'
  end.

(** A line that is empty or white space only. *)
Definition blank_line (l : string) : bool :=
  negb (Py.truthy l) || Py.isspace l.

(** The lines from the row of the cursor to the end of the text. *)
Definition lines_from_cursor (d : Document.t) : list string :=
  skipn (Z.to_nat (Document.cursor_position_row d)) (Document.lines d).

(** The test of the [Keys.ControlJ] binding at lines 96-97, before [not]. *)
Definition at_end_of_text (d : Document.t) : bool :=
  Document.on_last_line d
  || (Document.line_count d - Document.empty_line_count_at_the_end d
      <=? Document.cursor_position_row d)%Z.

Definition is_enter (ev : Shell.UIEvent) : bool :=
  match ev with
  | Shell.Enter => true
  | _ => false
  end.

Definition is_end_of_input (ev : Shell.UIEvent) : bool :=
  match ev with
  | Shell.EndOfInput _ => true
  | _ => false
  end.

(** The reads started, the separators printed and the questions asked. *)
Fixpoint prompts (log : list Shell.Effect) : nat :=
  match log with
  | [] => 0
  | Shell.CliRun :: tl => S (prompts tl)
  | _ :: tl => prompts tl
  end.

Fixpoint separators (log : list Shell.Effect) : nat :=
  match log with
  | [] => 0
  | Shell.Stdout s :: tl =>
      if String.eqb s Py.nl then S (separators tl) else separators tl
  | _ :: tl => separators tl
  end.

Fixpoint questions (log : list Shell.Effect) : nat :=
  match log with
  | [] => 0
  | Shell.AskYesNo _ _ _ :: tl => S (questions tl)
  | _ :: tl => questions tl
  end.

Definition count_events (f : Shell.UIEvent -> bool) (events : list Shell.UIEvent) : nat :=
  length (filter f events).

(** What one event may add to the log. *)
Definition delta_ok (ev : Shell.UIEvent) (delta : list Shell.Effect) : Prop :=
  Forall (fun p => snd p = true) (Shell.dispatches delta)
  /\ incl (map fst (Shell.dispatches delta)) (Shell.checks delta)
  /\ length (Shell.dispatches delta) <= length (Shell.checks delta)
  /\ length (Shell.checks delta) <= (if is_enter ev then 1 else 0)
  /\ questions delta <= (if is_end_of_input ev then 1 else 0)
  /\ prompts delta = separators delta
  /\ ~ In Shell.WaitForKernel delta.

(** The same for a list of events. *)
Definition deltas_ok (events : list Shell.UIEvent) (delta : list Shell.Effect) : Prop :=
  Forall (fun p => snd p = true) (Shell.dispatches delta)
  /\ incl (map fst (Shell.dispatches delta)) (Shell.checks delta)
  /\ length (Shell.dispatches delta) <= length (Shell.checks delta)
  /\ length (Shell.checks delta) <= count_events is_enter events
  /\ questions delta <= count_events is_end_of_input events
  /\ prompts delta = separators delta
  /\ ~ In Shell.WaitForKernel delta.

(** No text waits in [rl_next_input] while a read is open. *)
Definition no_pending_input (r : Shell.Run) : Prop :=
  Shell.phase r = Shell.Prompting ->
  Shell.rl_next_input (Shell.shell r) = None
  \/ Shell.rl_next_input (Shell.shell r) = Some "".

End Measure.

(** ** Concrete collaborators, for running the model *)

Module Samples.

(** An input splitter that gives the same verdict for every text. *)
Definition always (st : Shell.Status) (indent : option Z)
  : string -> Shell.Status * option Z :=
  fun _ => (st, indent).

(** A kernel whose replies leave the attributes of the shell alone. *)
Definition quiet_kernel : list Shell.Effect -> Shell.t -> Shell.t :=
  fun _ sh => sh.

(** A kernel that asks to exit after every cell. *)
Definition exiting_kernel : list Shell.Effect -> Shell.t -> Shell.t :=
  fun _ sh => Shell.ask_exit sh.

(** A completion engine that used ["foo"] and found two matches. *)
Definition foo_engine : Completer.Engine :=
  fun _ _ => ("foo", ["foo"; "foobar"]).

(** A shell whose buffer has no accept handler. *)
Definition ignoring_shell : Shell.t :=
  Shell.mkShell true None
    (Cli.mkCli (Cli.mkBuffer (Document.make "" 0) Cli.IGNORE) None).

(** The shell after [__init__], a ready kernel, the user typed [1+1]. *)
Definition typed_sum : Shell.Run :=
  Shell.interact (always Shell.Complete None) Cli.newline
    quiet_kernel true [Shell.Edit (Document.make "1+1" 3)] Shell.init.

(** Two lines, the first one indented by two spaces, the cursor at the
    end of the first. *)
Definition cursor_on_indented_line : Shell.Run :=
  Shell.interact (always Shell.Complete None) Cli.newline
    quiet_kernel true
    [Shell.Edit (Document.make ("  a" ++ Py.nl ++ "b") 3)] Shell.init.

(** The text "a" and two empty lines, the cursor on the second line. *)
Definition cursor_in_trailing_blank_lines : Shell.Run :=
  Shell.interact (always Shell.Complete None) Cli.newline
    quiet_kernel true
    [Shell.Edit (Document.make ("a" ++ Py.nl ++ Py.nl) 2)] Shell.init.

(** The shell after [__init__], a ready kernel, nothing typed. *)
Definition nothing_typed : Shell.Run :=
  Shell.interact (always Shell.Complete None) Cli.newline
    quiet_kernel true [] Shell.init.

(** A buffer without accept handler, the user typed [if x:]. *)
Definition typed_if : Shell.Run :=
  Shell.interact (always Shell.Incomplete (Some 4%Z)) Cli.newline
    quiet_kernel true [Shell.Edit (Document.make "if x:" 5)]
    ignoring_shell.

End Samples.

(** * Properties *)

(** ** Text primitives *)

Module PyFacts.

Lemma truthy_false_iff (s : string) : Py.truthy s = false <-> s = "".
Proof.
  destruct s; simpl; split; intro H; try reflexivity; discriminate H.
Qed.

Lemma lstrip_all_space (s : string) :
  Py.all_space s = true -> Py.lstrip s = "".
Proof.
  induction s as [|c s IH]; simpl; intro H.
  - reflexivity.
  - apply andb_prop in H. destruct H as [Hc Hs].
    rewrite Hc. now apply IH.
Qed.

Lemma strip_all_space (s : string) :
  Py.all_space s = true -> Py.strip s = "".
Proof.
  intro H. unfold Py.strip. now rewrite (lstrip_all_space s H).
Qed.

(** What [rstrip] leaves never ends in white space; in particular it is
    empty or has a character that is not white space. *)
Lemma rstrip_all_space (s : string) :
  Py.all_space s = true -> Py.rstrip s = "".
Proof.
  induction s as [|c s IH]; simpl; intro H.
  - reflexivity.
  - apply andb_prop in H. destruct H as [Hc Hs].
    rewrite (IH Hs), Hc. reflexivity.
Qed.

Lemma take_drop (n : nat) (s : string) :
  (Py.take n s ++ Py.drop n s)%string = s.
Proof.
  revert s. induction n as [|n IH]; intros [|c s]; simpl; try reflexivity.
  now rewrite IH.
Qed.

Lemma length_app (a b : string) :
  String.length (a ++ b)%string = String.length a + String.length b.
Proof.
  induction a as [|c a IH]; simpl; [reflexivity | now rewrite IH].
Qed.

Lemma length_spaces (n : nat) :
  String.length (Py.spaces (Z.of_nat n)) = n.
Proof.
  unfold Py.spaces. rewrite Nat2Z.id.
  induction n as [|n IH]; simpl; [reflexivity | now rewrite IH].
Qed.

End PyFacts.

(** ** History preload *)

Module HistoryFacts.

Import History.

Definition cell_of (row : Row) : string := Py.rstrip (snd row).

Lemma preload_step_spec (h : list string) (row : Row) :
  preload_step "" h row
  = if Py.truthy (cell_of row) then h ++ [cell_of row] else h.
Proof.
  destruct row as [[session line] cell]. unfold preload_step, cell_of, append.
  simpl. destruct (Py.rstrip cell); reflexivity.
Qed.

Lemma fold_preload (tail : list Row) (h : list string) :
  fold_left (preload_step "") tail h
  = h ++ filter Py.truthy (map cell_of tail).
Proof.
  revert h. induction tail as [|row tail IH]; intro h; simpl.
  - now rewrite app_nil_r.
  - rewrite IH, preload_step_spec.
    destruct (Py.truthy (cell_of row)); [now rewrite <- app_assoc | reflexivity].
Qed.

(** The preload keeps every row whose cell, stripped on the right, is not
    empty: nothing else is dropped. *)
Lemma preload_is_filter (tail : list Row) :
  preload tail = filter Py.truthy (map cell_of tail).
Proof. unfold preload. now rewrite fold_preload. Qed.

(** No entry of the preloaded history is blank. *)
Lemma preload_no_blank (tail : list Row) (cell : string) :
  In cell (preload tail) -> cell <> "".
Proof.
  rewrite preload_is_filter. intro H. apply filter_In in H.
  destruct H as [_ H]. intro E. subst cell. discriminate H.
Qed.

(** C1, evaluation of the code: for the raw tail ["a", "a", "", "b", "b"]
    the preloaded history is ["a", "a", "b", "b"].  The blank cell is
    dropped; the repeated cells are kept, since [last_cell] stays [""]
    for the whole loop.  The result differs from ["a", "b"] and has equal
    neighbours. *)
Theorem preload_keeps_repeated_cells :
  preload (rows_of ["a"; "a"; ""; "b"; "b"]) = ["a"; "a"; "b"; "b"]
  /\ preload (rows_of ["a"; "a"; ""; "b"; "b"]) <> ["a"; "b"]
  /\ no_adjacent_dup (preload (rows_of ["a"; "a"; ""; "b"; "b"])) = false.
Proof.
  split; [reflexivity | split; [discriminate | reflexivity]].
Qed.

End HistoryFacts.

(** ** Completion adaptor *)

Module CompleterFacts.

Import Completer.

(** On a line that is not blank the adaptor asks the engine once and maps
    the matches, in their order, to completions that start [len(used)]
    characters before the cursor. *)
Lemma get_completions_nonblank (engine : Engine) (d : Document.t)
      (used : string) (matches : list string) :
  Py.truthy (Py.strip (Document.current_line d)) = true ->
  engine (Document.current_line d) (Document.cursor_position_col d)
  = (used, matches) ->
  get_completions engine d
  = ([mkCall (Document.current_line d) (Document.cursor_position_col d)],
     map (fun m => mkCompletion m (- Z.of_nat (String.length used))) matches).
Proof.
  intros Hline Hengine. unfold get_completions.
  rewrite Hline, Hengine. reflexivity.
Qed.

(** C7: when the line of the cursor is not blank and the engine answers a
    used text of length 3 with the matches ["foo", "foobar"], the adaptor
    yields exactly the completions "foo" and "foobar", in that order,
    each with start position -3, after one call to the engine. *)
Theorem completions_anchored_in_order (engine : Engine) (d : Document.t)
        (used : string) :
  Py.truthy (Py.strip (Document.current_line d)) = true ->
  engine (Document.current_line d) (Document.cursor_position_col d)
  = (used, ["foo"; "foobar"]) ->
  String.length used = 3 ->
  get_completions engine d
  = ([mkCall (Document.current_line d) (Document.cursor_position_col d)],
     [mkCompletion "foo" (-3); mkCompletion "foobar" (-3)]).
Proof.
  intros Hline Hengine Hused.
  rewrite (get_completions_nonblank engine d used _ Hline Hengine), Hused.
  reflexivity.
Qed.

(** C8: when the line of the cursor is empty or has white space only, the
    adaptor yields no completion and makes no call to the engine. *)
Theorem blank_line_yields_nothing (engine : Engine) (d : Document.t) :
  Py.all_space (Document.current_line d) = true ->
  get_completions engine d = ([], []).
Proof.
  intro H. unfold get_completions.
  rewrite (PyFacts.strip_all_space _ H). reflexivity.
Qed.

End CompleterFacts.

(** ** Interactive loop *)

Module ShellFacts.

Import Shell.

Lemma dispatches_app (a b : list Effect) :
  dispatches (a ++ b) = dispatches a ++ dispatches b.
Proof.
  induction a as [|e a IH]; simpl; [reflexivity|].
  destruct e; simpl; now rewrite IH.
Qed.

Lemma checks_app (a b : list Effect) :
  checks (a ++ b) = checks a ++ checks b.
Proof.
  induction a as [|e a IH]; simpl; [reflexivity|].
  destruct e; simpl; now rewrite IH.
Qed.

Lemma pre_prompt_keep_running (sh : t) :
  keep_running (pre_prompt sh) = keep_running sh.
Proof.
  unfold pre_prompt. destruct (rl_next_input sh) as [s|]; [|reflexivity].
  destruct (Py.truthy s); reflexivity.
Qed.

Lemma pre_prompt_return_value (sh : t) :
  Cli.return_value (pt_cli (pre_prompt sh)) = Cli.return_value (pt_cli sh).
Proof.
  unfold pre_prompt. destruct (rl_next_input sh) as [s|]; [|reflexivity].
  destruct (Py.truthy s); reflexivity.
Qed.

(** The head of the loop adds no dispatch and no completeness check. *)
Lemma loop_head_log (sh : t) (l : list Effect) :
  exists rest, log (loop_head sh l) = l ++ rest
               /\ dispatches rest = [] /\ checks rest = [].
Proof.
  unfold loop_head. destruct (keep_running sh); simpl.
  - eexists. split; [reflexivity | split; reflexivity].
  - exists []. rewrite app_nil_r. split; [reflexivity | split; reflexivity].
Qed.

Section Collaborators.

Variable check_complete : string -> Status * option Z.
Variable newline : Cli.Buffer -> Cli.Buffer.
Variable run_cell : list Effect -> t -> t.

Local Abbreviation enter_binding := (Shell.enter_binding check_complete newline).
Local Abbreviation step := (Shell.step check_complete newline run_cell).
Local Abbreviation finish_read := (Shell.finish_read run_cell).
Local Abbreviation interact := (Shell.interact check_complete newline run_cell).

Lemma loop_head_reading (sh : t) (l : list Effect) :
  reading (loop_head sh l).
Proof.
  unfold reading, loop_head.
  destruct (keep_running sh) eqn:K; simpl; intro H; [|discriminate H].
  rewrite pre_prompt_keep_running, pre_prompt_return_value. simpl.
  split; [exact K | reflexivity].
Qed.

Lemma finish_read_reading res confirm sh l :
  reading (finish_read res confirm sh l).
Proof.
  unfold Shell.finish_read.
  destruct (after_read run_cell res confirm sh l) as [sh' l'].
  apply loop_head_reading.
Qed.

Lemma step_reading (r : Run) (ev : UIEvent) :
  reading r -> reading (step r ev).
Proof.
  intro Hr. unfold Shell.step.
  destruct (phase r) eqn:P; [|exact Hr].
  destruct (Hr P) as [K V].
  destruct ev.
  - destruct (enter_binding (pt_cli (shell r))) as [cli' calls] eqn:E.
    destruct (Cli.return_value cli') as [d|] eqn:V'.
    + apply finish_read_reading.
    + intros _. simpl. split; assumption.
  - intros _. simpl. split; assumption.
  - intros _. simpl. split; assumption.
  - apply finish_read_reading.
  - apply finish_read_reading.
Qed.

Lemma fold_step_reading (events : list UIEvent) (r : Run) :
  reading r -> reading (fold_left step events r).
Proof.
  revert r. induction events as [|ev events IH]; intros r Hr; simpl.
  - exact Hr.
  - apply IH, step_reading, Hr.
Qed.

(** Inside a read the loop flag is set and no value waits to be
    returned, whatever happened before. *)
Lemma interact_reading ready events sh :
  reading (interact ready events sh).
Proof.
  unfold Shell.interact. destruct ready; simpl.
  - apply fold_step_reading, loop_head_reading.
  - intro H. discriminate H.
Qed.

(** Once the loop has left, events change nothing. *)
Lemma exited_is_final (events : list UIEvent) (r : Run) :
  phase r = Exiting -> fold_left step events r = r.
Proof.
  intro P. induction events as [|ev events IH]; simpl; [reflexivity|].
  unfold Shell.step at 2. rewrite P. exact IH.
Qed.

(** The three ways through the [Keys.ControlJ] binding. *)

Lemma enter_binding_newline (cli : Cli.t) :
  let d := Cli.document (Cli.current_buffer cli) in
  Document.on_last_line d = false ->
  (Document.cursor_position_row d
   < Document.line_count d - Document.empty_line_count_at_the_end d)%Z ->
  enter_binding cli
  = (Cli.with_buffer (newline (Cli.current_buffer cli)) cli, []).
Proof.
  intros d Hlast Hrow. unfold Shell.enter_binding. fold d.
  rewrite Hlast. apply Z.leb_gt in Hrow. rewrite Hrow. reflexivity.
Qed.

Lemma enter_binding_accept (cli : Cli.t) (status : Status) (indent : option Z) :
  let b := Cli.current_buffer cli in
  let d := Cli.document b in
  Document.on_last_line d = true ->
  check_complete (Document.text d) = (status, indent) ->
  status <> Incomplete ->
  Cli.is_returnable (Cli.accept_action b) = true ->
  enter_binding cli
  = (Cli.set_return_value d cli, [CheckComplete (Document.text d)]).
Proof.
  intros b d Hlast Hcc Hst Hret. unfold Shell.enter_binding. fold b. fold d.
  rewrite Hlast, Hcc, Hret. simpl.
  assert (is_incomplete status = false) as ->
      by (destruct status; [reflexivity | contradiction | reflexivity]).
  simpl. unfold Cli.validate_and_handle.
  destruct (Cli.accept_action b); [discriminate Hret | reflexivity].
Qed.

Lemma enter_binding_indent (cli : Cli.t) (status : Status) (indent : option Z) :
  let b := Cli.current_buffer cli in
  let d := Cli.document b in
  Document.on_last_line d = true ->
  check_complete (Document.text d) = (status, indent) ->
  status = Incomplete \/ Cli.is_returnable (Cli.accept_action b) = false ->
  enter_binding cli
  = (Cli.with_buffer
       (Cli.insert_text (Py.nl ++ Py.spaces (Py.or_zero indent)) b) cli,
     [CheckComplete (Document.text d)]).
Proof.
  intros b d Hlast Hcc Hor. unfold Shell.enter_binding. fold b. fold d.
  rewrite Hlast, Hcc. simpl.
  destruct Hor as [-> | ->]; simpl; [reflexivity|].
  now rewrite andb_false_r.
Qed.

(** One pass of the loop after a read that returned a document: one
    dispatch, of the text of the document, with [store_history=True]. *)
Lemma finish_read_returned (confirm : bool) (sh : t) (l : list Effect)
      (d : Document.t) :
  exists rest,
    log (finish_read (Returned (Some d)) confirm sh l)
    = l ++ RunCell (Document.text d) true :: rest
    /\ dispatches rest = [] /\ checks rest = [].
Proof.
  unfold Shell.finish_read, after_read.
  destruct (loop_head_log
              (run_cell (l ++ [RunCell (Document.text d) true]) sh)
              (l ++ [RunCell (Document.text d) true]))
    as [rest [Hlog [Hd Hc]]].
  exists rest. rewrite Hlog, <- app_assoc. simpl.
  split; [reflexivity | split; assumption].
Qed.

(** C5: when [wait_for_kernel] answers false, [interact] writes
    "Kernel did not respond" to the error stream and returns: the
    kernel is asked once, nothing is dispatched, and whatever happens
    at the terminal afterwards changes nothing. *)
Theorem kernel_timeout_no_dispatch (events : list UIEvent) (sh : t) :
  let r := interact false events sh in
  phase r = Exiting
  /\ log r = [WaitForKernel;
              Stderr ("Kernel did not respond" ++ Py.nl ++ Py.nl)]
  /\ dispatches (log r) = []
  /\ shell r = sh
  /\ forall more, fold_left step more r = r.
Proof.
  simpl. repeat split. intro more. now apply exited_is_final.
Qed.

(** C6: on end of input during a read, [interact] asks
    "Do you really want to exit ([y]/n)?" with default "y".  If the
    answer is yes the loop stops and later events change nothing; if
    it is no, the loop prints the separator and starts the next read.
    Either way nothing is dispatched for the read that ended. *)
Theorem end_of_input_asks_to_exit (ready : bool) (events : list UIEvent)
        (sh : t) (confirm : bool) :
  let r := interact ready events sh in
  let r' := step r (EndOfInput confirm) in
  phase r = Prompting ->
  dispatches (log r') = dispatches (log r)
  /\ (confirm = true ->
      phase r' = Exiting
      /\ log r' = log r ++ [AskYesNo "Do you really want to exit ([y]/n)?" "y" "n"]
      /\ forall more, fold_left step more r' = r')
  /\ (confirm = false ->
      phase r' = Prompting
      /\ log r' = log r ++ [AskYesNo "Do you really want to exit ([y]/n)?" "y" "n";
                            Stdout Py.nl; CliRun]).
Proof.
  intros r r' P.
  destruct (interact_reading ready events sh P) as [K _]. fold r in K.
  assert (E : r' = if confirm
                   then mkRun (ask_exit (shell r)) Exiting
                          (log r ++ [exit_question])
                   else mkRun (pre_prompt
                                 (with_cli (Cli.reset (pt_cli (shell r)))
                                    (shell r)))
                          Prompting
                          ((log r ++ [exit_question])
                             ++ [Stdout Py.nl; CliRun])).
  { unfold r', Shell.step. rewrite P.
    unfold Shell.finish_read, after_read, loop_head.
    destruct confirm; simpl; [reflexivity|]. rewrite K. reflexivity. }
  rewrite E. destruct confirm; simpl.
  - split; [|split].
    + rewrite dispatches_app. simpl. now rewrite app_nil_r.
    + intros _. split; [reflexivity|]. split; [reflexivity|].
      intro more. now apply exited_is_final.
    + intro H. discriminate H.
  - split; [|split].
    + rewrite !dispatches_app. simpl. now rewrite !app_nil_r.
    + intro H. discriminate H.
    + intros _. split; [reflexivity|]. now rewrite <- app_assoc.
Qed.

(** The branch of line 194: when the read has returned a document,
    whatever its text, the pass of the loop dispatches it exactly once, as
    [run_cell(document.text, store_history=True)]; a document with the
    empty text is dispatched as well. *)
Lemma returned_document_dispatched_once (confirm : bool) (sh : t)
        (l : list Effect) (d : Document.t) :
  dispatches (log (finish_read (Returned (Some d)) confirm sh l))
  = dispatches l ++ [(Document.text d, true)]
  /\ dispatches (log (finish_read (Returned (Some (Document.make "" 0)))
                        confirm sh l))
     = dispatches l ++ [("", true)].
Proof.
  split.
  - destruct (finish_read_returned confirm sh l d) as [rest [-> [Hd _]]].
    rewrite dispatches_app. simpl. now rewrite Hd.
  - destruct (finish_read_returned confirm sh l (Document.make "" 0))
      as [rest [-> [Hd _]]].
    rewrite dispatches_app. simpl. now rewrite Hd.
Qed.

(** On Enter with the cursor on the last line, when the completeness
    check does not answer [incomplete] and the buffer is returnable, the
    binding hands the document of the buffer to the interface, so that
    the read ends, and the pass of the loop makes exactly one dispatch, of
    the full text of the buffer with [store_history=True], right after
    the completeness check. *)
Lemma enter_accepts_when_returnable (r : Run) (status : Status)
        (indent : option Z) :
  let d := document_of r in
  let r' := step r Enter in
  phase r = Prompting ->
  Document.on_last_line d = true ->
  check_complete (Document.text d) = (status, indent) ->
  status <> Incomplete ->
  Cli.is_returnable (Cli.accept_action (buffer_of r)) = true ->
  Cli.return_value (fst (enter_binding (pt_cli (shell r)))) = Some d
  /\ (exists rest,
         log r' = log r ++ [CheckComplete (Document.text d);
                            RunCell (Document.text d) true] ++ rest
         /\ dispatches rest = [] /\ checks rest = [])
  /\ dispatches (log r') = dispatches (log r) ++ [(Document.text d, true)].
Proof.
  intros d r' P Hlast Hcc Hst Hret.
  pose proof (enter_binding_accept (pt_cli (shell r)) status indent
                Hlast Hcc Hst Hret) as E.
  fold (buffer_of r) in E. fold (document_of r) in E. fold d in E.
  assert (Hlog : exists rest,
             log r' = log r ++ [CheckComplete (Document.text d);
                                RunCell (Document.text d) true] ++ rest
             /\ dispatches rest = [] /\ checks rest = []).
  { unfold r', Shell.step. rewrite P, E. simpl Cli.return_value. cbv iota.
    destruct (finish_read_returned false
                (with_cli (Cli.set_return_value d (pt_cli (shell r)))
                   (shell r))
                (log r ++ [CheckComplete (Document.text d)]) d)
      as [rest [-> H]].
    exists rest. split; [now rewrite <- app_assoc | exact H]. }
  split; [now rewrite E | split; [exact Hlog|]].
  destruct Hlog as [rest [-> [Hd _]]].
  rewrite !dispatches_app. simpl. now rewrite Hd.
Qed.

(** On Enter with the cursor neither on the last line nor at or below
    the first of the blank lines that end the text, the binding applies
    [newline] to the buffer and does nothing else: no completeness check,
    no dispatch, and the read goes on. *)
Lemma enter_above_text_end_is_newline (ready : bool)
        (events : list UIEvent) (sh : t) :
  let r := interact ready events sh in
  let d := document_of r in
  let r' := step r Enter in
  phase r = Prompting ->
  Document.on_last_line d = false ->
  (Document.cursor_position_row d
   < Document.line_count d - Document.empty_line_count_at_the_end d)%Z ->
  buffer_of r' = newline (buffer_of r)
  /\ phase r' = Prompting
  /\ Cli.return_value (pt_cli (shell r')) = None
  /\ log r' = log r.
Proof.
  intros r d r' P Hlast Hrow.
  destruct (interact_reading ready events sh P) as [_ V]. fold r in V.
  pose proof (enter_binding_newline (pt_cli (shell r)) Hlast Hrow) as E.
  assert (Hr' : r' = mkRun (with_cli
                              (Cli.with_buffer (newline (buffer_of r))
                                 (pt_cli (shell r))) (shell r))
                       Prompting (log r ++ [])).
  { unfold r', Shell.step. rewrite P, E. simpl Cli.return_value.
    rewrite V. reflexivity. }
  rewrite Hr'. simpl. rewrite app_nil_r. repeat split. exact V.
Qed.

(** C4: on Enter with the cursor on the last line, when the
    completeness check answers [incomplete] with indent 4 and the
    buffer is not returnable, the text of the buffer gains exactly a
    line separator and four spaces, at the cursor; the completeness
    check is the only call, nothing is dispatched and the read goes
    on. *)
Theorem enter_incomplete_indents (ready : bool) (events : list UIEvent)
        (sh : t) :
  let r := interact ready events sh in
  let d := document_of r in
  let r' := step r Enter in
  phase r = Prompting ->
  Document.on_last_line d = true ->
  check_complete (Document.text d) = (Incomplete, Some 4%Z) ->
  Cli.is_returnable (Cli.accept_action (buffer_of r)) = false ->
  Document.text (document_of r')
  = (Document.text_before_cursor d ++ (Py.nl ++ "    ")
       ++ Document.text_after_cursor d)%string
  /\ String.length (Document.text (document_of r'))
     = String.length (Document.text d) + 5
  /\ phase r' = Prompting
  /\ Cli.return_value (pt_cli (shell r')) = None
  /\ log r' = log r ++ [CheckComplete (Document.text d)]
  /\ dispatches (log r') = dispatches (log r).
Proof.
  intros r d r' P Hlast Hcc Hret.
  destruct (interact_reading ready events sh P) as [_ V]. fold r in V.
  pose proof (enter_binding_indent (pt_cli (shell r)) Incomplete
                (Some 4%Z) Hlast Hcc (or_introl eq_refl)) as E.
  assert (Hr' : r' = mkRun (with_cli
                              (Cli.with_buffer
                                 (Cli.insert_text (Py.nl ++ "    ")
                                    (buffer_of r))
                                 (pt_cli (shell r))) (shell r))
                       Prompting
                       (log r ++ [CheckComplete (Document.text d)])).
  { unfold r', Shell.step. rewrite P, E. simpl Cli.return_value.
    rewrite V. reflexivity. }
  rewrite Hr'. unfold document_of, buffer_of. simpl.
  repeat split.
  - pose proof (f_equal String.length
                  (PyFacts.take_drop (Document.cursor_position d)
                     (Document.text d))) as L.
    rewrite PyFacts.length_app in L.
    rewrite !PyFacts.length_app. simpl.
    unfold Document.text_before_cursor, Document.text_after_cursor.
    subst d. unfold document_of, buffer_of in *. lia.
  - exact V.
  - rewrite dispatches_app. simpl. now rewrite app_nil_r.
Qed.

End Collaborators.

End ShellFacts.

(** ** The pending next input *)

Module PrePromptFacts.

Import Shell.

(** C10: [pre_prompt] runs at the start of every read, before the
    interface waits for a key.  If [rl_next_input] holds a text that is
    not empty, the text of the buffer becomes exactly that text and
    [rl_next_input] becomes [None]; if it is [None] or the empty text,
    the shell, and with it the buffer and the slot, stays as it is. *)
Theorem pre_prompt_moves_next_input (sh : t) :
  (forall s : string,
      rl_next_input sh = Some s -> s <> "" ->
      Document.text (Cli.document (Cli.current_buffer (pt_cli (pre_prompt sh)))) = s
      /\ rl_next_input (pre_prompt sh) = None)
  /\ (rl_next_input sh = None \/ rl_next_input sh = Some "" ->
      pre_prompt sh = sh)
  /\ (forall l : list Effect,
         keep_running sh = true ->
         shell (loop_head sh l)
         = pre_prompt (with_cli (Cli.reset (pt_cli sh)) sh)).
Proof.
  split; [|split].
  - intros s Hs Hne. unfold pre_prompt. rewrite Hs.
    destruct s as [|c s]; [contradiction|]. simpl. split; reflexivity.
  - intros [H | H]; unfold pre_prompt; rewrite H; reflexivity.
  - intros l K. unfold loop_head. rewrite K. reflexivity.
Qed.

End PrePromptFacts.

(** ** Enter and the reads of the loop, with the [newline] of the library *)

Module ReadFacts.

Import Shell.

Lemma pre_prompt_accept_action (sh : t) :
  Cli.accept_action (Cli.current_buffer (pt_cli (pre_prompt sh)))
  = Cli.accept_action (Cli.current_buffer (pt_cli sh)).
Proof.
  unfold pre_prompt. destruct (rl_next_input sh) as [s|]; [|reflexivity].
  destruct (Py.truthy s); reflexivity.
Qed.

Lemma loop_head_accept_action (sh : t) (l : list Effect) :
  Cli.accept_action (buffer_of (loop_head sh l))
  = Cli.accept_action (Cli.current_buffer (pt_cli sh)).
Proof.
  unfold loop_head, buffer_of. destruct (keep_running sh); simpl;
    [|reflexivity].
  now rewrite pre_prompt_accept_action.
Qed.

(** What [newline] of the library leaves in the buffer. *)
Lemma newline_text (b : Cli.Buffer) :
  let d := Cli.document b in
  let margin := Document.leading_whitespace_in_current_line d in
  Document.text (Cli.document (Cli.newline b))
  = (Document.text_before_cursor d ++ Py.nl ++ margin
       ++ Document.text_after_cursor d)%string
  /\ String.length (Document.text (Cli.document (Cli.newline b)))
     = String.length (Document.text d) + 1 + String.length margin
  /\ Document.cursor_position (Cli.document (Cli.newline b))
     = Document.cursor_position d + 1 + String.length margin.
Proof.
  intros d margin. unfold Cli.newline, Cli.insert_text. fold d. fold margin.
  cbn [Cli.document Document.text Document.cursor_position].
  pose proof (f_equal String.length
                (PyFacts.take_drop (Document.cursor_position d)
                   (Document.text d))) as L.
  rewrite PyFacts.length_app in L.
  assert (Ldata : String.length (Py.nl ++ margin)%string
                  = 1 + String.length margin) by reflexivity.
  split; [reflexivity | split].
  - rewrite !PyFacts.length_app. change (String.length Py.nl) with 1.
    unfold Document.text_before_cursor, Document.text_after_cursor. lia.
  - rewrite Ldata. lia.
Qed.

Section Collaborators.

Variable check_complete : string -> Status * option Z.
Variable run_cell : list Effect -> t -> t.

Local Abbreviation enter_binding :=
  (Shell.enter_binding check_complete Cli.newline).
Local Abbreviation step := (Shell.step check_complete Cli.newline run_cell).
Local Abbreviation finish_read := (Shell.finish_read run_cell).
Local Abbreviation interact :=
  (Shell.interact check_complete Cli.newline run_cell).

(** No branch of the binding changes the accept action of the buffer. *)
Lemma enter_binding_accept_action (cli : Cli.t) :
  Cli.accept_action (Cli.current_buffer (fst (enter_binding cli)))
  = Cli.accept_action (Cli.current_buffer cli).
Proof.
  unfold Shell.enter_binding.
  destruct (negb _); [reflexivity|].
  destruct (check_complete _) as [status indent].
  destruct (negb _ && _); [|reflexivity].
  unfold Cli.validate_and_handle.
  destruct (Cli.accept_action (Cli.current_buffer cli)) eqn:A; simpl;
    exact A.
Qed.

(** The binding makes no dispatch of its own. *)
Lemma enter_binding_no_dispatch (cli : Cli.t) :
  dispatches (snd (enter_binding cli)) = [].
Proof.
  unfold Shell.enter_binding.
  destruct (negb _); [reflexivity|].
  destruct (check_complete _) as [status indent].
  destruct (negb _ && _); reflexivity.
Qed.

Lemma finish_read_accept_action (res : ReadResult) (confirm : bool)
      (sh : t) (l : list Effect) :
  keeps_accept_action run_cell ->
  Cli.accept_action (buffer_of (finish_read res confirm sh l))
  = Cli.accept_action (Cli.current_buffer (pt_cli sh)).
Proof.
  intro Hk. unfold Shell.finish_read, after_read.
  destruct res as [[d|]|]; [| |destruct confirm];
    rewrite loop_head_accept_action; try reflexivity.
  apply Hk.
Qed.

Lemma step_accept_action (r : Run) (ev : UIEvent) :
  keeps_accept_action run_cell ->
  Cli.accept_action (buffer_of (step r ev))
  = Cli.accept_action (buffer_of r).
Proof.
  intro Hk. unfold Shell.step. destruct (phase r); [|reflexivity].
  destruct ev; try reflexivity.
  - pose proof (enter_binding_accept_action (pt_cli (shell r))) as E.
    destruct (enter_binding (pt_cli (shell r))) as [cli' calls].
    simpl in E. destruct (Cli.return_value cli').
    + rewrite (finish_read_accept_action _ _ _ _ Hk). exact E.
    + exact E.
  - now apply finish_read_accept_action.
  - now apply finish_read_accept_action.
Qed.

(** The accept action the application was built with is the accept
    action of the buffer at every point of every run. *)
Lemma interact_accept_action (ready : bool) (events : list UIEvent) (sh : t) :
  keeps_accept_action run_cell ->
  Cli.accept_action (buffer_of (interact ready events sh))
  = Cli.accept_action (Cli.current_buffer (pt_cli sh)).
Proof.
  intro Hk. unfold Shell.interact. destruct ready; simpl; [|reflexivity].
  rewrite <- (loop_head_accept_action sh [WaitForKernel]).
  generalize (loop_head sh [WaitForKernel]).
  induction events as [|ev events IH]; intro r; simpl; [reflexivity|].
  rewrite IH. now apply step_accept_action.
Qed.

(** C2: the application is built with the accept action that returns the
    document (lines 145-154) and the kernel client leaves it alone.  In
    every run of [interact], on Enter with the cursor on the last line,
    when the completeness check answers [complete] (or the buffer is
    returnable and the verdict is not [incomplete]), the binding hands
    the document of the buffer to the interface, so that the read ends,
    and the loop makes exactly one dispatch, of the full text of the
    buffer with [store_history=True], right after the completeness
    check. *)
Theorem enter_on_last_line_submits (ready : bool) (events : list UIEvent)
        (sh : t) (status : Status) (indent : option Z) :
  let r := interact ready events sh in
  let d := document_of r in
  let r' := step r Enter in
  keeps_accept_action run_cell ->
  Cli.accept_action (Cli.current_buffer (pt_cli sh)) = Cli.RETURN_DOCUMENT ->
  phase r = Prompting ->
  Document.on_last_line d = true ->
  check_complete (Document.text d) = (status, indent) ->
  status = Complete
  \/ (Cli.is_returnable (Cli.accept_action (buffer_of r)) = true
      /\ status <> Incomplete) ->
  Cli.return_value (fst (enter_binding (pt_cli (shell r)))) = Some d
  /\ (exists rest,
         log r' = log r ++ [CheckComplete (Document.text d);
                            RunCell (Document.text d) true] ++ rest
         /\ dispatches rest = [] /\ checks rest = [])
  /\ dispatches (log r') = dispatches (log r) ++ [(Document.text d, true)].
Proof.
  intros r d r' Hk Hsh P Hlast Hcc Hst.
  assert (Hret : Cli.is_returnable (Cli.accept_action (buffer_of r)) = true).
  { unfold r. rewrite (interact_accept_action ready events sh Hk), Hsh.
    reflexivity. }
  assert (Hne : status <> Incomplete).
  { destruct Hst as [-> | [_ H]]; [discriminate | exact H]. }
  exact (ShellFacts.enter_accepts_when_returnable check_complete Cli.newline
           run_cell r status indent P Hlast Hcc Hne Hret).
Qed.

(** C3, amended: in every run of [interact], on Enter with the cursor
    neither on the last line nor at or below the first of the blank lines
    that end the text (its row is less than the line count minus the
    count of blank lines at the end), the buffer gains at the cursor a
    line separator followed by a copy of the white space that starts the
    line of the cursor, and nothing else: a plain line separator when
    that line starts with no white space.  No completeness check and no
    dispatch is made, and the read goes on. *)
Theorem enter_above_text_end_copies_margin (ready : bool)
        (events : list UIEvent) (sh : t) :
  let r := interact ready events sh in
  let d := document_of r in
  let margin := Document.leading_whitespace_in_current_line d in
  let r' := step r Enter in
  phase r = Prompting ->
  Document.on_last_line d = false ->
  (Document.cursor_position_row d
   < Document.line_count d - Document.empty_line_count_at_the_end d)%Z ->
  Document.text (document_of r')
  = (Document.text_before_cursor d ++ Py.nl ++ margin
       ++ Document.text_after_cursor d)%string
  /\ String.length (Document.text (document_of r'))
     = String.length (Document.text d) + 1 + String.length margin
  /\ (margin = "" ->
      Document.text (document_of r')
      = (Document.text_before_cursor d ++ Py.nl
           ++ Document.text_after_cursor d)%string)
  /\ phase r' = Prompting
  /\ Cli.return_value (pt_cli (shell r')) = None
  /\ log r' = log r.
Proof.
  intros r d margin r' P Hlast Hrow.
  destruct (ShellFacts.enter_above_text_end_is_newline check_complete
              Cli.newline run_cell ready events sh P Hlast Hrow)
    as [Hb [Hp [Hv Hl]]].
  fold r in Hb, Hp, Hv, Hl. fold r' in Hb, Hp, Hv, Hl.
  destruct (newline_text (buffer_of r)) as [Ht [Hlen _]].
  fold (document_of r) in Ht, Hlen. fold d in Ht, Hlen. fold margin in Ht, Hlen.
  unfold document_of. rewrite Hb.
  split; [exact Ht | split; [exact Hlen | split]].
  - intro Hm. rewrite Ht, Hm. reflexivity.
  - split; [exact Hp | split; [exact Hv | exact Hl]].
Qed.

(** C9: in every run of [interact], inside a read, when the Enter binding
    has set the return value of the interface, so that the read returns
    that document, the loop dispatches the text of the document exactly
    once, as [run_cell(document.text, store_history=True)], right after
    the calls of the binding, whatever the text is, the empty text
    included.  Nothing is dispatched by an Enter that sets no return
    value, nor by any other event.  And however the read came to return a
    document, the pass of the loop after it makes that one dispatch. *)
Theorem read_document_dispatched_once (ready : bool) (events : list UIEvent)
        (sh : t) :
  let r := interact ready events sh in
  let calls := snd (enter_binding (pt_cli (shell r))) in
  phase r = Prompting ->
  (forall d : Document.t,
      Cli.return_value (fst (enter_binding (pt_cli (shell r)))) = Some d ->
      (exists rest,
          log (step r Enter)
          = log r ++ calls ++ RunCell (Document.text d) true :: rest
          /\ dispatches rest = [])
      /\ dispatches (log (step r Enter))
         = dispatches (log r) ++ [(Document.text d, true)])
  /\ (Cli.return_value (fst (enter_binding (pt_cli (shell r)))) = None ->
      dispatches (log (step r Enter)) = dispatches (log r))
  /\ (forall ev : UIEvent,
         ev <> Enter -> dispatches (log (step r ev)) = dispatches (log r))
  /\ (forall (confirm : bool) (s : t) (l : list Effect) (d : Document.t),
         dispatches (log (finish_read (Returned (Some d)) confirm s l))
         = dispatches l ++ [(Document.text d, true)]).
Proof.
  intros r calls P.
  pose proof (enter_binding_no_dispatch (pt_cli (shell r))) as Hcalls.
  fold calls in Hcalls.
  split; [|split; [|split]].
  - intros d Hd.
    assert (E : step r Enter
                = finish_read (Returned (Some d)) false
                    (with_cli (fst (enter_binding (pt_cli (shell r))))
                       (shell r))
                    (log r ++ calls)).
    { unfold Shell.step. rewrite P. unfold calls.
      destruct (enter_binding (pt_cli (shell r))) as [cli' cs].
      simpl in Hd |- *. rewrite Hd. reflexivity. }
    rewrite E.
    destruct (ShellFacts.finish_read_returned run_cell false
                (with_cli (fst (enter_binding (pt_cli (shell r)))) (shell r))
                (log r ++ calls) d) as [rest [-> [Hrest _]]].
    split.
    + exists rest. split; [now rewrite <- app_assoc | exact Hrest].
    + rewrite !ShellFacts.dispatches_app, Hcalls. simpl.
      now rewrite Hrest, app_nil_r.
  - intro Hn. unfold Shell.step. rewrite P. fold calls in Hcalls.
    destruct (enter_binding (pt_cli (shell r))) as [cli' cs].
    simpl in Hn, Hcalls |- *. rewrite Hn. simpl.
    rewrite ShellFacts.dispatches_app. unfold calls in Hcalls.
    simpl in Hcalls. now rewrite Hcalls, app_nil_r.
  - intros ev Hev. unfold Shell.step. rewrite P.
    destruct ev; try reflexivity; try contradiction.
    + unfold Shell.finish_read, after_read.
      destruct (ShellFacts.loop_head_log (shell r) (log r))
        as [rest [-> [Hrest _]]].
      rewrite ShellFacts.dispatches_app, Hrest. now rewrite app_nil_r.
    + unfold Shell.finish_read, after_read.
      destruct confirm;
        match goal with
        | |- context [loop_head ?s ?l] =>
            destruct (ShellFacts.loop_head_log s l) as [rest [-> [Hrest _]]]
        end;
        rewrite !ShellFacts.dispatches_app, Hrest; simpl;
        now rewrite !app_nil_r.
  - intros confirm s l d.
    destruct (ShellFacts.finish_read_returned run_cell confirm s l d)
      as [rest [-> [Hrest _]]].
    rewrite ShellFacts.dispatches_app. simpl. now rewrite Hrest.
Qed.

End Collaborators.

End ReadFacts.

(** ** The theorems at concrete inputs *)

Module Examples.

Import Shell.

(** A line with text, cursor at its end, and the engine of [Samples]. *)
Lemma completions_anchored_in_order_at_foo :
  Py.truthy (Py.strip (Document.current_line (Document.make "foo" 3))) = true
  /\ String.length "foo" = 3
  /\ Completer.get_completions Samples.foo_engine (Document.make "foo" 3)
     = ([Completer.mkCall "foo" 3],
        [Completer.mkCompletion "foo" (-3);
         Completer.mkCompletion "foobar" (-3)]).
Proof.
  split; [reflexivity | split; [reflexivity|]].
  apply (CompleterFacts.completions_anchored_in_order
           Samples.foo_engine (Document.make "foo" 3) "foo");
    reflexivity.
Defined.

(** A line of three spaces. *)
Lemma blank_line_yields_nothing_at_spaces :
  Py.all_space (Document.current_line (Document.make "   " 1)) = true
  /\ Completer.get_completions Samples.foo_engine (Document.make "   " 1)
     = ([], []).
Proof.
  split; [reflexivity|].
  apply (CompleterFacts.blank_line_yields_nothing
           Samples.foo_engine (Document.make "   " 1)).
  reflexivity.
Defined.

Lemma enter_on_last_line_submits_at_sum :
  keeps_accept_action Samples.quiet_kernel
  /\ phase Samples.typed_sum = Prompting
  /\ Document.on_last_line (document_of Samples.typed_sum) = true
  /\ dispatches
       (log (step (Samples.always Complete None) Cli.newline
               Samples.quiet_kernel Samples.typed_sum Enter))
     = [("1+1", true)].
Proof.
  assert (Hk : keeps_accept_action Samples.quiet_kernel)
    by (intros l s; reflexivity).
  split; [exact Hk | split; [reflexivity | split; [reflexivity|]]].
  exact (proj2 (proj2 (ReadFacts.enter_on_last_line_submits
                         (Samples.always Complete None) Samples.quiet_kernel
                         true [Edit (Document.make "1+1" 3)] init
                         Complete None Hk eq_refl eq_refl eq_refl eq_refl
                         (or_introl eq_refl)))).
Defined.

Lemma enter_above_text_end_copies_margin_at_indented_line :
  phase Samples.cursor_on_indented_line = Prompting
  /\ Document.on_last_line (document_of Samples.cursor_on_indented_line)
     = false
  /\ (let r' := step (Samples.always Complete None) Cli.newline
                  Samples.quiet_kernel Samples.cursor_on_indented_line Enter in
      Document.text (document_of r')
      = ("  a" ++ Py.nl ++ "  " ++ Py.nl ++ "b")%string
      /\ log r' = log Samples.cursor_on_indented_line).
Proof.
  split; [reflexivity | split; [reflexivity|]].
  pose proof (ReadFacts.enter_above_text_end_copies_margin
                (Samples.always Complete None) Samples.quiet_kernel true
                [Edit (Document.make ("  a" ++ Py.nl ++ "b") 3)] init
                eq_refl eq_refl eq_refl) as H.
  destruct H as [Htext [_ [_ [_ [_ Hlog]]]]].
  split; [exact Htext | exact Hlog].
Defined.

(** C3 as stated fails, in two ways.  With the text "a" and two empty
    lines and the cursor on the second of the three lines, not the last,
    Enter runs the completeness check and, the verdict being [complete],
    the text is dispatched.  With the text "  a" and "b" and the cursor at
    the end of the first line, Enter inserts the line separator and the
    two spaces of the margin, which is not the text a plain line
    separator at the cursor gives. *)
Lemma enter_above_last_line_not_plain_newline :
  (let r := Samples.cursor_in_trailing_blank_lines in
   let d := document_of r in
   let r' := step (Samples.always Complete None) Cli.newline
               Samples.quiet_kernel r Enter in
   phase r = Prompting
   /\ d = Document.make ("a" ++ Py.nl ++ Py.nl) 2
   /\ Document.cursor_position_row d = 1%Z
   /\ Document.line_count d = 3%Z
   /\ Document.on_last_line d = false
   /\ checks (log r') = [("a" ++ Py.nl ++ Py.nl)%string]
   /\ dispatches (log r') = [(("a" ++ Py.nl ++ Py.nl)%string, true)])
  /\ (let r := Samples.cursor_on_indented_line in
      let d := document_of r in
      let r' := step (Samples.always Complete None) Cli.newline
                  Samples.quiet_kernel r Enter in
      phase r = Prompting
      /\ d = Document.make ("  a" ++ Py.nl ++ "b") 3
      /\ Document.on_last_line d = false
      /\ Document.text (document_of r')
         = ("  a" ++ Py.nl ++ "  " ++ Py.nl ++ "b")%string
      /\ Document.text (document_of r')
         <> (Document.text_before_cursor d ++ Py.nl
               ++ Document.text_after_cursor d)%string).
Proof.
  split.
  - repeat split.
  - split; [reflexivity | split; [reflexivity | split; [reflexivity|]]].
    split; [reflexivity | discriminate].
Qed.

Lemma read_document_dispatched_once_at_empty_text :
  phase Samples.nothing_typed = Prompting
  /\ Cli.return_value
       (fst (enter_binding (Samples.always Complete None) Cli.newline
               (pt_cli (shell Samples.nothing_typed))))
     = Some (Document.make "" 0)
  /\ dispatches
       (log (step (Samples.always Complete None) Cli.newline
               Samples.quiet_kernel Samples.nothing_typed Enter))
     = [("", true)].
Proof.
  split; [reflexivity | split; [reflexivity|]].
  pose proof (ReadFacts.read_document_dispatched_once
                (Samples.always Complete None) Samples.quiet_kernel true []
                init eq_refl) as H.
  destruct H as [H _].
  exact (proj2 (H (Document.make "" 0) eq_refl)).
Defined.

Lemma enter_incomplete_indents_at_if :
  phase Samples.typed_if = Prompting
  /\ Document.on_last_line (document_of Samples.typed_if) = true
  /\ Cli.is_returnable (Cli.accept_action (buffer_of Samples.typed_if)) = false
  /\ (let r' := step (Samples.always Incomplete (Some 4%Z))
                  Cli.newline Samples.quiet_kernel
                  Samples.typed_if Enter in
      Document.text (document_of r') = ("if x:" ++ Py.nl ++ "    ")%string
      /\ String.length (Document.text (document_of r')) = 10
      /\ dispatches (log r') = []).
Proof.
  split; [reflexivity | split; [reflexivity | split; [reflexivity|]]].
  pose proof (ShellFacts.enter_incomplete_indents
                (Samples.always Incomplete (Some 4%Z))
                Cli.newline Samples.quiet_kernel true
                [Edit (Document.make "if x:" 5)] Samples.ignoring_shell
                eq_refl eq_refl eq_refl eq_refl) as H.
  destruct H as [Htext [Hlen [_ [_ [_ Hdisp]]]]].
  split; [exact Htext | split; [exact Hlen | exact Hdisp]].
Defined.

(** End of input at the first prompt, the user confirms. *)
Lemma end_of_input_asks_to_exit_at_first_prompt :
  let r := interact (Samples.always Complete None) Cli.newline
             Samples.quiet_kernel true [] init in
  let r' := step (Samples.always Complete None) Cli.newline
              Samples.quiet_kernel r (EndOfInput true) in
  phase r = Prompting
  /\ phase r' = Exiting
  /\ log r' = [WaitForKernel; Stdout Py.nl; CliRun; exit_question].
Proof.
  split; [reflexivity|].
  pose proof (ShellFacts.end_of_input_asks_to_exit
                (Samples.always Complete None) Cli.newline
                Samples.quiet_kernel true [] init true eq_refl) as H.
  destruct H as [_ [H _]]. destruct (H eq_refl) as [Hphase [Hlog _]].
  split; [exact Hphase | exact Hlog].
Defined.

(** A pending next input of [1+1]. *)
Lemma pre_prompt_moves_next_input_at_sum :
  let sh := mkShell true (Some "1+1") Cli.fresh in
  Document.text (Cli.document (Cli.current_buffer (pt_cli (pre_prompt sh))))
  = "1+1"
  /\ rl_next_input (pre_prompt sh) = None.
Proof.
  apply (proj1 (PrePromptFacts.pre_prompt_moves_next_input
                  (mkShell true (Some "1+1") Cli.fresh)) "1+1");
    [reflexivity | discriminate].
Defined.

End Examples.

(** * Further properties *)

(** ** Texts and documents *)

Module TextFacts.

Lemma rstrip_idem (s : string) : Py.rstrip (Py.rstrip s) = Py.rstrip s.
Proof.
  induction s as [|c s IH]; simpl; [reflexivity|].
  destruct (Py.isspace_char c && negb (Py.truthy (Py.rstrip s))) eqn:E;
    simpl; [reflexivity|].
  now rewrite IH, E.
Qed.

Lemma rstrip_empty_all_space (s : string) :
  Py.rstrip s = "" -> Py.all_space s = true.
Proof.
  induction s as [|c s IH]; simpl; [reflexivity|].
  destruct (Py.isspace_char c) eqn:C; simpl; [|discriminate].
  destruct (Py.rstrip s) eqn:R; simpl; [|discriminate].
  intros _. now apply IH.
Qed.

Lemma rstrip_last_not_space (s t : string) (c : ascii) :
  Py.rstrip s = (t ++ String c "")%string -> Py.isspace_char c = false.
Proof.
  revert t. induction s as [|a s IH]; simpl; intros t H.
  - destruct t; discriminate H.
  - destruct (Py.isspace_char a && negb (Py.truthy (Py.rstrip s))) eqn:E.
    + destruct t; discriminate H.
    + destruct t as [|b t]; simpl in H.
      * injection H as Ha Hr. subst a. rewrite Hr in E. simpl in E.
        now rewrite andb_true_r in E.
      * injection H as _ Hr. exact (IH t Hr).
Qed.

Lemma split_lines_nonempty (s : string) : Py.split_lines s <> [].
Proof.
  induction s as [|c s IH]; simpl; [discriminate|].
  destruct (Ascii.eqb c Py.nl_char); [discriminate|].
  destruct (Py.split_lines s); [contradiction | discriminate].
Qed.

Lemma split_lines_length_pos (s : string) :
  1 <= length (Py.split_lines s).
Proof.
  pose proof (split_lines_nonempty s) as N.
  destruct (Py.split_lines s); [contradiction | simpl; lia].
Qed.

Lemma split_lines_length_cons (c : ascii) (s : string) :
  length (Py.split_lines (String c s))
  = if Ascii.eqb c Py.nl_char then S (length (Py.split_lines s))
    else length (Py.split_lines s).
Proof.
  simpl. destruct (Ascii.eqb c Py.nl_char); [reflexivity|].
  pose proof (split_lines_nonempty s) as N.
  destruct (Py.split_lines s); [contradiction | reflexivity].
Qed.

(** Cutting a text in two adds one line to the count. *)
Lemma split_lines_length_app (a b : string) :
  S (length (Py.split_lines (a ++ b)))
  = length (Py.split_lines a) + length (Py.split_lines b).
Proof.
  induction a as [|c a IH].
  - reflexivity.
  - change (String c a ++ b)%string with (String c (a ++ b)%string).
    rewrite !split_lines_length_cons.
    destruct (Ascii.eqb c Py.nl_char); simpl; now rewrite IH.
Qed.

Lemma split_lines_one (s : string) :
  Measure.contains_nl s = false -> Py.split_lines s = [s].
Proof.
  induction s as [|c s IH]; simpl; [reflexivity|].
  intro H. apply orb_false_elim in H. destruct H as [Hc Hs].
  rewrite Hc, (IH Hs). reflexivity.
Qed.

Lemma split_lines_length_one (s : string) :
  length (Py.split_lines s) = 1 <-> Measure.contains_nl s = false.
Proof.
  split.
  - induction s as [|c s IH]; [reflexivity|].
    rewrite split_lines_length_cons. simpl.
    destruct (Ascii.eqb c Py.nl_char); simpl; [|exact IH].
    intro H. pose proof (split_lines_nonempty s) as N.
    destruct (Py.split_lines s); [contradiction | discriminate H].
  - intro H. now rewrite (split_lines_one s H).
Qed.

Lemma contains_nl_take (n : nat) (s : string) :
  Measure.contains_nl s = false -> Measure.contains_nl (Py.take n s) = false.
Proof.
  revert s. induction n as [|n IH]; intros [|c s]; simpl; try reflexivity.
  intro H. apply orb_false_elim in H. destruct H as [Hc Hs].
  now rewrite Hc, (IH s Hs).
Qed.

Lemma contains_nl_drop (n : nat) (s : string) :
  Measure.contains_nl s = false -> Measure.contains_nl (Py.drop n s) = false.
Proof.
  revert s. induction n as [|n IH]; intros [|c s]; simpl; try reflexivity.
  - intro H. exact H.
  - intro H. apply orb_false_elim in H. destruct H as [_ Hs]. now apply IH.
Qed.

(** The cursor is on the last line exactly when no line separator follows
    it. *)
Lemma on_last_line_iff (d : Document.t) :
  Document.on_last_line d = true
  <-> Measure.contains_nl (Document.text_after_cursor d) = false.
Proof.
  unfold Document.on_last_line, Document.cursor_position_row,
    Document.line_count, Document.lines.
  pose proof (split_lines_length_app (Document.text_before_cursor d)
                (Document.text_after_cursor d)) as L.
  unfold Document.text_before_cursor, Document.text_after_cursor in L.
  rewrite PyFacts.take_drop in L.
  rewrite <- split_lines_length_one, Z.eqb_eq.
  unfold Document.text_before_cursor, Document.text_after_cursor. lia.
Qed.

(** The row of the cursor is a row of the text. *)
Lemma cursor_row_in_range (d : Document.t) :
  (0 <= Document.cursor_position_row d < Document.line_count d)%Z.
Proof.
  unfold Document.cursor_position_row, Document.line_count, Document.lines.
  pose proof (split_lines_length_app (Document.text_before_cursor d)
                (Document.text_after_cursor d)) as L.
  unfold Document.text_before_cursor, Document.text_after_cursor in L.
  rewrite PyFacts.take_drop in L.
  pose proof (split_lines_length_pos (Py.take (Document.cursor_position d)
                                        (Document.text d))) as N1.
  pose proof (split_lines_length_pos (Py.drop (Document.cursor_position d)
                                        (Document.text d))) as N2.
  unfold Document.text_before_cursor. lia.
Qed.

End TextFacts.

(** ** History preload, all inputs *)

Module HistoryMore.

Import History.

Lemma filter_nil_iff {A : Type} (f : A -> bool) (l : list A) :
  filter f l = [] <-> forall x, In x l -> f x = false.
Proof.
  induction l as [|a l IH]; simpl.
  - split; [intros _ x [] | reflexivity].
  - destruct (f a) eqn:Fa; split.
    + discriminate.
    + intro H. rewrite (H a (or_introl eq_refl)) in Fa. discriminate Fa.
    + intros H x [<- | Hx]; [exact Fa | now apply IH].
    + intro H. apply IH. intros x Hx. apply H. now right.
Qed.

(** X1: a text is in the preloaded history exactly when it is not empty
    and is the cell of some row with its trailing white space removed. *)
Theorem preload_membership (tail : list Row) (cell : string) :
  In cell (preload tail)
  <-> cell <> "" /\ exists row, In row tail /\ Py.rstrip (snd row) = cell.
Proof.
  rewrite HistoryFacts.preload_is_filter, filter_In, in_map_iff.
  unfold HistoryFacts.cell_of. split.
  - intros [[row [Hc Hin]] Ht]. split.
    + intro E. subst cell. rewrite E in Ht. discriminate Ht.
    + exists row. split; assumption.
  - intros [Hne [row [Hin Hc]]]. split.
    + exists row. split; assumption.
    + destruct cell; [contradiction | reflexivity].
Qed.

(** X2: every entry of the preloaded history is stored without trailing
    white space: stripping it again changes nothing and its last
    character is not white space. *)
Theorem preload_entries_stripped (tail : list Row) (cell : string) :
  In cell (preload tail) ->
  Py.rstrip cell = cell
  /\ forall (t : string) (c : ascii),
      cell = (t ++ String c "")%string -> Py.isspace_char c = false.
Proof.
  rewrite HistoryFacts.preload_is_filter, filter_In, in_map_iff.
  unfold HistoryFacts.cell_of. intros [[row [Hc _]] _]. subst cell. split.
  - apply TextFacts.rstrip_idem.
  - intros t c E. exact (TextFacts.rstrip_last_not_space (snd row) t c E).
Qed.

(** X3: the preloaded history has at most one entry per row, and it is
    empty exactly when every cell is empty or white space only; for no
    rows at all it is empty. *)
Theorem preload_empty_iff_blank (tail : list Row) :
  length (preload tail) <= length tail
  /\ (preload tail = []
      <-> forall row, In row tail -> Py.all_space (snd row) = true).
Proof.
  rewrite HistoryFacts.preload_is_filter. split.
  - rewrite <- (length_map HistoryFacts.cell_of tail).
    apply filter_length_le.
  - rewrite filter_nil_iff. split.
    + intros H row Hin. apply TextFacts.rstrip_empty_all_space.
      apply PyFacts.truthy_false_iff. apply H.
      apply in_map_iff. exists row. split; [reflexivity | exact Hin].
    + intros H x Hx. apply in_map_iff in Hx.
      destruct Hx as [row [<- Hin]]. unfold HistoryFacts.cell_of.
      now rewrite (PyFacts.rstrip_all_space _ (H row Hin)).
Qed.

End HistoryMore.

(** ** Completion adaptor, all inputs *)

Module CompleterMore.

Import Completer.

Lemma column_in_line (d : Document.t) :
  Document.cursor_position_col d <= String.length (Document.current_line d).
Proof.
  unfold Document.cursor_position_col, Document.current_line.
  rewrite PyFacts.length_app. lia.
Qed.

(** X4: for every document and engine, the adaptor calls the engine at
    most once; the completions it yields carry the matches of the engine
    in their order, all with the same start position, minus the length of
    the used text, which is never after the cursor. *)
Theorem completions_follow_engine (engine : Engine) (d : Document.t) :
  let line := Document.current_line d in
  let col := Document.cursor_position_col d in
  let result := get_completions engine d in
  length (fst result) <= 1
  /\ map completion_text (snd result)
     = (if Py.truthy (Py.strip line) then snd (engine line col) else [])
  /\ forall c, In c (snd result) ->
       start_position c = (- Z.of_nat (String.length (fst (engine line col))))%Z
       /\ (start_position c <= 0)%Z.
Proof.
  intros line col result. unfold result, get_completions. fold line. fold col.
  destruct (Py.truthy (Py.strip line)); simpl.
  - destruct (engine line col) as [used matches]. simpl.
    split; [lia | split].
    + rewrite map_map. simpl. apply map_id.
    + intros c Hc. apply in_map_iff in Hc. destruct Hc as [m [<- _]].
      simpl. split; [reflexivity | lia].
  - split; [lia | split; [reflexivity | intros c []]].
Qed.

(** X5: whenever the adaptor calls the engine, it passes the whole line
    of the cursor and a cursor position inside that line. *)
Theorem engine_called_inside_line (engine : Engine) (d : Document.t)
        (call : EngineCall) :
  In call (fst (get_completions engine d)) ->
  line_buffer call = Document.current_line d
  /\ cursor_pos call = Document.cursor_position_col d
  /\ cursor_pos call <= String.length (line_buffer call).
Proof.
  unfold get_completions.
  destruct (Py.truthy (Py.strip (Document.current_line d))); simpl.
  - destruct (engine _ _) as [used matches]. simpl.
    intros [<- | []]. simpl.
    split; [reflexivity | split; [reflexivity | apply column_in_line]].
  - intros [].
Qed.

Lemma length_take (n : nat) (s : string) :
  String.length (Py.take n s) = Nat.min n (String.length s).
Proof.
  revert s. induction n as [|n IH]; intros [|c s]; simpl; try reflexivity.
  now rewrite IH.
Qed.

Lemma one_line_current_line (d : Document.t) :
  Measure.contains_nl (Document.text d) = false ->
  Document.current_line d = Document.text d
  /\ Document.cursor_position_col d
     = Nat.min (Document.cursor_position d) (String.length (Document.text d)).
Proof.
  intro H.
  unfold Document.cursor_position_col, Document.current_line,
    Document.current_line_before_cursor, Document.current_line_after_cursor,
    Document.text_before_cursor, Document.text_after_cursor.
  rewrite (TextFacts.split_lines_one _
             (TextFacts.contains_nl_take (Document.cursor_position d) _ H)).
  rewrite (TextFacts.split_lines_one _
             (TextFacts.contains_nl_drop (Document.cursor_position d) _ H)).
  simpl. split; [apply PyFacts.take_drop | apply length_take].
Qed.

(** X6: for a text of one line that is not blank, the adaptor calls the
    engine once, with the whole text and the position of the cursor in it
    (the length of the text when the cursor is past its end). *)
Theorem one_line_text_completed_whole (engine : Engine) (d : Document.t) :
  Measure.contains_nl (Document.text d) = false ->
  Py.truthy (Py.strip (Document.text d)) = true ->
  fst (get_completions engine d)
  = [mkCall (Document.text d)
       (Nat.min (Document.cursor_position d) (String.length (Document.text d)))].
Proof.
  intros Hnl Hline. destruct (one_line_current_line d Hnl) as [Hcur Hcol].
  unfold get_completions. rewrite Hcur, Hcol, Hline. simpl.
  destruct (engine _ _) as [used matches]. reflexivity.
Qed.

End CompleterMore.

(** ** The Enter binding, all inputs *)

Module EnterMore.

Import Shell.

Lemma count_blank_prefix_leb (l : list string) (m : nat) :
  m <= length l ->
  (m <=? Document.count_blank_prefix l)%nat
  = forallb Measure.blank_line (firstn m l).
Proof.
  revert m. induction l as [|x tl IH]; intros [|m] Hm; simpl in *;
    try reflexivity; try lia.
  fold (Measure.blank_line x). destruct (Measure.blank_line x); simpl.
  - apply IH. lia.
  - reflexivity.
Qed.

Lemma forallb_rev {A : Type} (f : A -> bool) (l : list A) :
  forallb f (rev l) = forallb f l.
Proof.
  apply Bool.eq_iff_eq_true. rewrite !forallb_forall.
  split; intros H x Hx; apply H; [now apply -> in_rev | now apply in_rev].
Qed.

(** The second test of line 96: the row of the cursor is at or past the
    first of the blank lines that end the text exactly when every line
    from the row of the cursor on is blank. *)
Lemma in_trailing_blank_lines (d : Document.t) :
  (Document.line_count d - Document.empty_line_count_at_the_end d
   <=? Document.cursor_position_row d)%Z
  = forallb Measure.blank_line (Measure.lines_from_cursor d).
Proof.
  pose proof (TextFacts.cursor_row_in_range d) as R.
  unfold Measure.lines_from_cursor, Document.empty_line_count_at_the_end,
    Document.line_count in *.
  set (ls := Document.lines d) in *.
  set (row := Document.cursor_position_row d) in *.
  pose proof (count_blank_prefix_leb (rev ls) (length ls - Z.to_nat row)) as C.
  rewrite length_rev in C. specialize (C ltac:(lia)).
  rewrite firstn_rev, forallb_rev in C.
  replace (length ls - (length ls - Z.to_nat row)) with (Z.to_nat row) in C
    by lia.
  rewrite <- C. apply Bool.eq_iff_eq_true.
  rewrite Z.leb_le, Nat.leb_le. lia.
Qed.

(** The test of lines 96-97 read on the text: no line separator follows
    the cursor, or every line from the row of the cursor on is blank. *)
Lemma at_end_of_text_spec (d : Document.t) :
  Measure.at_end_of_text d
  = negb (Measure.contains_nl (Document.text_after_cursor d))
    || forallb Measure.blank_line (Measure.lines_from_cursor d).
Proof.
  unfold Measure.at_end_of_text. rewrite in_trailing_blank_lines. f_equal.
  apply Bool.eq_iff_eq_true. rewrite TextFacts.on_last_line_iff, negb_true_iff.
  reflexivity.
Qed.

Lemma length_spaces_Z (n : Z) : String.length (Py.spaces n) = Z.to_nat n.
Proof.
  unfold Py.spaces. induction (Z.to_nat n) as [|k IH]; simpl;
    [reflexivity | now rewrite IH].
Qed.

Lemma drop_all (n : nat) (s : string) :
  String.length s <= n -> Py.drop n s = "".
Proof.
  revert s. induction n as [|n IH]; intros [|c s]; simpl; intro H;
    try reflexivity; try lia.
  apply IH. lia.
Qed.

Section Collaborators.

Variable check_complete : string -> Status * option Z.
Variable newline : Cli.Buffer -> Cli.Buffer.

Local Abbreviation enter_binding := (Shell.enter_binding check_complete newline).

(** The binding as a choice between its three branches. *)
Lemma enter_binding_branches (cli : Cli.t) :
  let b := Cli.current_buffer cli in
  let d := Cli.document b in
  enter_binding cli
  = if negb (Measure.at_end_of_text d)
    then (Cli.with_buffer (newline b) cli, [])
    else if negb (is_incomplete (fst (check_complete (Document.text d))))
            && Cli.is_returnable (Cli.accept_action b)
         then (Cli.validate_and_handle cli b, [CheckComplete (Document.text d)])
         else (Cli.with_buffer
                 (Cli.insert_text
                    (Py.nl ++ Py.spaces
                                (Py.or_zero (snd (check_complete (Document.text d)))))
                    b) cli,
               [CheckComplete (Document.text d)]).
Proof.
  intros b d. unfold Shell.enter_binding, Measure.at_end_of_text.
  fold b. fold d.
  destruct (check_complete (Document.text d)) as [status indent].
  reflexivity.
Qed.

(** X7: Enter is the plain [newline] of the buffer, with no call to the
    completeness check, when a line separator follows the cursor and some
    line from the row of the cursor on is not blank; in every other case
    the binding makes exactly one completeness check, on the whole text. *)
Theorem enter_newline_or_check (cli : Cli.t) :
  let b := Cli.current_buffer cli in
  let d := Cli.document b in
  (Measure.contains_nl (Document.text_after_cursor d) = true
   /\ forallb Measure.blank_line (Measure.lines_from_cursor d) = false ->
   enter_binding cli = (Cli.with_buffer (newline b) cli, []))
  /\ (Measure.contains_nl (Document.text_after_cursor d) = false
      \/ forallb Measure.blank_line (Measure.lines_from_cursor d) = true ->
      snd (enter_binding cli) = [CheckComplete (Document.text d)]).
Proof.
  intros b d. rewrite enter_binding_branches. fold b. fold d.
  rewrite EnterMore.at_end_of_text_spec. split.
  - intros [-> ->]. reflexivity.
  - intros [-> | ->]; simpl; rewrite ?orb_true_r; simpl;
      destruct (negb _ && _); reflexivity.
Qed.

(** X8: with the cursor at or past the end of the text, Enter always goes
    to the completeness check, whatever the text is. *)
Theorem enter_at_end_of_text_is_checked (cli : Cli.t) :
  let d := Cli.document (Cli.current_buffer cli) in
  String.length (Document.text d) <= Document.cursor_position d ->
  snd (enter_binding cli) = [CheckComplete (Document.text d)].
Proof.
  intros d H. rewrite enter_binding_branches. fold d.
  rewrite EnterMore.at_end_of_text_spec.
  unfold Document.text_after_cursor. rewrite (EnterMore.drop_all _ _ H).
  simpl. destruct (negb _ && _); reflexivity.
Qed.

(** X9: when no return value is set yet, Enter sets one exactly when the
    test of lines 96-97 holds, the verdict is not [incomplete] and the
    buffer is returnable; the value is then the document of the buffer,
    and the buffer is left as it was.  An incomplete input is never
    submitted, and nothing is submitted from a buffer without handler. *)
Theorem enter_submits_iff (cli : Cli.t) :
  let b := Cli.current_buffer cli in
  let d := Cli.document b in
  Cli.return_value cli = None ->
  (Cli.return_value (fst (enter_binding cli)) <> None
   <-> Measure.at_end_of_text d = true
       /\ is_incomplete (fst (check_complete (Document.text d))) = false
       /\ Cli.is_returnable (Cli.accept_action b) = true)
  /\ (forall d', Cli.return_value (fst (enter_binding cli)) = Some d' ->
                 d' = d /\ Cli.current_buffer (fst (enter_binding cli)) = b).
Proof.
  intros b d V. rewrite enter_binding_branches. fold b. fold d.
  destruct (Measure.at_end_of_text d); simpl.
  - destruct (is_incomplete (fst (check_complete (Document.text d)))); simpl.
    + rewrite V. split; [|intros d' H; discriminate H].
      split; [intro H; now contradiction H | intros [_ [H _]]; discriminate H].
    + unfold Cli.validate_and_handle.
      destruct (Cli.accept_action b) eqn:A; simpl.
      * rewrite V. split; [|intros d' H; discriminate H].
        split; [intro H; now contradiction H
               | intros [_ [_ H]]; discriminate H].
      * split.
        -- split; [intros _; repeat split | intros _; discriminate].
        -- intros d' H. injection H as <-. split; reflexivity.
  - rewrite V. split; [|intros d' H; discriminate H].
    split; [intro H; now contradiction H | intros [H _]; discriminate H].
Qed.

(** X10: when the test of lines 96-97 holds and the verdict is
    [incomplete] or the buffer is not returnable, Enter inserts at the
    cursor a line separator and as many spaces as the suggested indent
    ([None] counting as 0): the text grows by one plus the indent, the
    cursor moves past the inserted text, no return value is set.  With no
    indent, or one that is not positive, only the line separator is
    inserted. *)
Theorem enter_indents_by_suggestion (cli : Cli.t) :
  let b := Cli.current_buffer cli in
  let d := Cli.document b in
  let n := Py.or_zero (snd (check_complete (Document.text d))) in
  let cli' := fst (enter_binding cli) in
  let d' := Cli.document (Cli.current_buffer cli') in
  Measure.at_end_of_text d = true ->
  is_incomplete (fst (check_complete (Document.text d))) = true
  \/ Cli.is_returnable (Cli.accept_action b) = false ->
  Document.text d'
  = (Document.text_before_cursor d ++ Py.nl ++ Py.spaces n
       ++ Document.text_after_cursor d)%string
  /\ String.length (Document.text d')
     = String.length (Document.text d) + 1 + Z.to_nat n
  /\ Document.cursor_position d' = Document.cursor_position d + 1 + Z.to_nat n
  /\ Cli.return_value cli' = Cli.return_value cli
  /\ ((n <= 0)%Z ->
      Document.text d'
      = (Document.text_before_cursor d ++ Py.nl
           ++ Document.text_after_cursor d)%string).
Proof.
  intros b d n cli' d' G Hor.
  pose proof (EnterMore.length_spaces_Z n) as Lsp.
  assert (Hz : (n <= 0)%Z -> Py.spaces n = "").
  { intro Hn. unfold Py.spaces. replace (Z.to_nat n) with 0 by lia.
    reflexivity. }
  assert (E : enter_binding cli
              = (Cli.with_buffer (Cli.insert_text (Py.nl ++ Py.spaces n) b) cli,
                 [CheckComplete (Document.text d)])).
  { rewrite enter_binding_branches. fold b. fold d. rewrite G. simpl.
    destruct Hor as [-> | ->]; simpl; rewrite ?andb_false_r; reflexivity. }
  unfold d', cli'. rewrite E. set (sp := Py.spaces n) in *. clearbody sp.
  simpl. fold d.
  pose proof (f_equal String.length
                (PyFacts.take_drop (Document.cursor_position d)
                   (Document.text d))) as L.
  rewrite PyFacts.length_app in L.
  repeat split.
  - unfold Document.text_before_cursor, Document.text_after_cursor.
    rewrite PyFacts.length_app. simpl. rewrite PyFacts.length_app. lia.
  - lia.
  - intro Hn. now rewrite (Hz Hn).
Qed.

End Collaborators.

End EnterMore.

(** ** The interactive loop, all runs *)

Module LoopMore.

Import Shell.

Lemma prompts_app (a b : list Effect) :
  Measure.prompts (a ++ b) = Measure.prompts a + Measure.prompts b.
Proof.
  induction a as [|e a IH]; simpl; [reflexivity|].
  destruct e; simpl; now rewrite IH.
Qed.

Lemma separators_app (a b : list Effect) :
  Measure.separators (a ++ b) = Measure.separators a + Measure.separators b.
Proof.
  induction a as [|e a IH]; simpl; [reflexivity|].
  destruct e; simpl; try now rewrite IH.
  destruct (String.eqb s Py.nl); simpl; now rewrite IH.
Qed.

Lemma questions_app (a b : list Effect) :
  Measure.questions (a ++ b) = Measure.questions a + Measure.questions b.
Proof.
  induction a as [|e a IH]; simpl; [reflexivity|].
  destruct e; simpl; now rewrite IH.
Qed.

Lemma deltas_ok_nil (events : list UIEvent) : Measure.deltas_ok events [].
Proof.
  unfold Measure.deltas_ok, Measure.count_events. simpl.
  repeat split; try lia; try constructor; try (intros x []); try (intros []).
Qed.

Lemma deltas_ok_cons (ev : UIEvent) (events : list UIEvent)
      (d1 d2 : list Effect) :
  Measure.delta_ok ev d1 -> Measure.deltas_ok events d2 ->
  Measure.deltas_ok (ev :: events) (d1 ++ d2).
Proof.
  intros [S1 [I1 [L1 [C1 [Q1 [P1 W1]]]]]] [S2 [I2 [L2 [C2 [Q2 [P2 W2]]]]]].
  unfold Measure.deltas_ok, Measure.count_events in *.
  rewrite ShellFacts.dispatches_app, ShellFacts.checks_app, map_app,
    !length_app, questions_app, prompts_app, separators_app.
  repeat split.
  - apply Forall_app. split; assumption.
  - apply incl_app; [now apply incl_appl | now apply incl_appr].
  - lia.
  - simpl. destruct (Measure.is_enter ev); simpl; lia.
  - simpl. destruct (Measure.is_end_of_input ev); simpl; lia.
  - lia.
  - intro H. apply in_app_or in H. destruct H; contradiction.
Qed.

Ltac not_in_list :=
  let H := fresh in
  intro H; simpl in H;
  repeat (destruct H as [H | H]; [discriminate H|]); exact H.

Ltac delta_facts :=
  unfold Measure.delta_ok; simpl;
  repeat match goal with
         | |- _ /\ _ => split
         | |- Forall _ _ => constructor
         | |- incl _ _ => let x := fresh in let Hx := fresh in
                          intros x Hx; simpl in Hx |- *; tauto
         | |- ~ _ => not_in_list
         | |- _ <= _ => lia
         | |- _ = _ => reflexivity
         end.

Section Collaborators.

Variable check_complete : string -> Status * option Z.
Variable newline : Cli.Buffer -> Cli.Buffer.
Variable run_cell : list Effect -> t -> t.

Local Abbreviation enter_binding := (Shell.enter_binding check_complete newline).
Local Abbreviation step := (Shell.step check_complete newline run_cell).
Local Abbreviation finish_read := (Shell.finish_read run_cell).
Local Abbreviation interact := (Shell.interact check_complete newline run_cell).

(** What the head of the loop adds to the log. *)
Lemma loop_head_delta (sh : t) (l : list Effect) :
  log (loop_head sh l)
  = l ++ (if keep_running sh then [Stdout Py.nl; CliRun] else []).
Proof.
  unfold loop_head. destruct (keep_running sh); simpl;
    [reflexivity | now rewrite app_nil_r].
Qed.

(** Enter inside a read: the three outcomes. *)
Lemma step_enter (r : Run) :
  phase r = Prompting ->
  Cli.return_value (pt_cli (shell r)) = None ->
  let b := buffer_of r in
  let d := document_of r in
  let cli := pt_cli (shell r) in
  step r Enter
  = if negb (Measure.at_end_of_text d)
    then mkRun (with_cli (Cli.with_buffer (newline b) cli) (shell r))
           Prompting (log r ++ [])
    else if negb (is_incomplete (fst (check_complete (Document.text d))))
            && Cli.is_returnable (Cli.accept_action b)
         then finish_read (Returned (Some d)) false
                (with_cli (Cli.set_return_value d cli) (shell r))
                (log r ++ [CheckComplete (Document.text d)])
         else mkRun
                (with_cli
                   (Cli.with_buffer
                      (Cli.insert_text
                         (Py.nl ++ Py.spaces
                                     (Py.or_zero
                                        (snd (check_complete (Document.text d)))))
                         b) cli) (shell r))
                Prompting (log r ++ [CheckComplete (Document.text d)]).
Proof.
  intros P V b d cli. unfold Shell.step. rewrite P.
  rewrite (EnterMore.enter_binding_branches check_complete newline).
  subst cli b d. unfold document_of, buffer_of.
  destruct (Measure.at_end_of_text _); simpl; [|rewrite V; reflexivity].
  destruct (is_incomplete _); simpl; [rewrite V; reflexivity|].
  unfold Cli.validate_and_handle.
  destruct (Cli.accept_action _); simpl; [rewrite V; reflexivity|].
  reflexivity.
Qed.

(** What one event adds to the log of a run. *)
Lemma step_delta (r : Run) (ev : UIEvent) :
  reading r ->
  exists delta, log (step r ev) = log r ++ delta /\ Measure.delta_ok ev delta.
Proof.
  intro Hr. destruct (phase r) eqn:P.
  - destruct (Hr P) as [K V]. destruct ev.
    + rewrite (step_enter r P V).
      destruct (negb (Measure.at_end_of_text (document_of r))).
      { eexists. split; [reflexivity | delta_facts]. }
      destruct (negb _ && _).
      * unfold Shell.finish_read, after_read. rewrite loop_head_delta.
        match goal with
        | |- context [if keep_running ?x then _ else _] =>
            destruct (keep_running x)
        end; rewrite <- !app_assoc; simpl;
          (eexists; split; [reflexivity | delta_facts]).
      * eexists. split; [reflexivity | delta_facts].
    + unfold Shell.step. rewrite P. exists []. simpl. rewrite app_nil_r.
      split; [reflexivity | delta_facts].
    + unfold Shell.step. rewrite P. exists []. simpl. rewrite app_nil_r.
      split; [reflexivity | delta_facts].
    + unfold Shell.step. rewrite P. unfold Shell.finish_read, after_read.
      rewrite loop_head_delta, K.
      eexists. split; [reflexivity | delta_facts].
    + unfold Shell.step. rewrite P. unfold Shell.finish_read, after_read.
      destruct confirm; rewrite loop_head_delta; simpl; rewrite ?K;
        rewrite <- !app_assoc; simpl;
        (eexists; split; [reflexivity | delta_facts]).
  - unfold Shell.step. rewrite P. exists []. rewrite app_nil_r.
    split; [reflexivity | delta_facts].
Qed.

Lemma fold_delta (events : list UIEvent) (r : Run) :
  reading r ->
  exists delta,
    log (fold_left step events r) = log r ++ delta
    /\ Measure.deltas_ok events delta.
Proof.
  revert r. induction events as [|ev events IH]; intros r Hr; simpl.
  - exists []. rewrite app_nil_r. split; [reflexivity | apply deltas_ok_nil].
  - destruct (step_delta r ev Hr) as [d1 [E1 O1]].
    destruct (IH (step r ev)
                (ShellFacts.step_reading check_complete newline run_cell
                   r ev Hr)) as [d2 [E2 O2]].
    exists (d1 ++ d2). rewrite E2, E1, <- app_assoc.
    split; [reflexivity | now apply deltas_ok_cons].
Qed.

(** The log of a run: the wait for the kernel, what [interact] does before
    the first key, and what the events add. *)
Lemma interact_log (ready : bool) (events : list UIEvent) (sh : t) :
  exists head delta,
    log (interact ready events sh) = WaitForKernel :: head ++ delta
    /\ dispatches head = [] /\ checks head = []
    /\ Measure.questions head = 0
    /\ Measure.prompts head = Measure.separators head
    /\ ~ In WaitForKernel head
    /\ Measure.deltas_ok events delta.
Proof.
  unfold Shell.interact. destruct ready; simpl.
  - destruct (fold_delta events (loop_head sh [WaitForKernel])
                (ShellFacts.loop_head_reading sh [WaitForKernel]))
      as [delta [E O]].
    rewrite E, loop_head_delta. simpl.
    exists (if keep_running sh then [Stdout Py.nl; CliRun] else []), delta.
    destruct (keep_running sh); simpl;
      do 5 (split; [reflexivity|]); (split; [not_in_list | exact O]).
  - eexists. exists []. rewrite app_nil_r.
    do 5 (split; [reflexivity|]). split; [not_in_list | apply deltas_ok_nil].
Qed.

(** X11: in every run of [interact], whatever the kernel, the user and
    the completeness check do, every dispatch asks for the cell to be
    stored in the history. *)
Theorem every_dispatch_stores_history (ready : bool) (events : list UIEvent)
        (sh : t) :
  Forall (fun p => snd p = true) (dispatches (log (interact ready events sh))).
Proof.
  destruct (interact_log ready events sh)
    as [head [delta [E [Hd [_ [_ [_ [_ O]]]]]]]].
  rewrite E. simpl. rewrite ShellFacts.dispatches_app, Hd. simpl.
  exact (proj1 O).
Qed.

(** X13: in every run the kernel is waited for once, as the first call,
    and the exit question is asked at most once per end of input. *)
Theorem one_wait_and_bounded_questions (ready : bool) (events : list UIEvent)
        (sh : t) :
  let l := log (interact ready events sh) in
  (exists rest, l = WaitForKernel :: rest /\ ~ In WaitForKernel rest)
  /\ Measure.questions l
     <= Measure.count_events Measure.is_end_of_input events.
Proof.
  destruct (interact_log ready events sh)
    as [head [delta [E [_ [_ [Hq [_ [Hw O]]]]]]]].
  destruct O as [_ [_ [_ [_ [Q [_ W]]]]]].
  cbv zeta. rewrite E. split.
  - exists (head ++ delta). split; [reflexivity|].
    intro H. apply in_app_or in H. destruct H; contradiction.
  - simpl. rewrite questions_app, Hq. simpl. exact Q.
Qed.


Lemma pre_prompt_slot (sh : t) :
  rl_next_input (pre_prompt sh) = None \/ rl_next_input (pre_prompt sh) = Some "".
Proof.
  unfold pre_prompt. destruct (rl_next_input sh) as [[|c s]|] eqn:E; simpl.
  - right. exact E.
  - left. reflexivity.
  - left. exact E.
Qed.

Lemma loop_head_no_pending (sh : t) (l : list Effect) :
  Measure.no_pending_input (loop_head sh l).
Proof.
  unfold Measure.no_pending_input, loop_head.
  destruct (keep_running sh); simpl; intro H; [|discriminate H].
  apply pre_prompt_slot.
Qed.

Lemma step_no_pending (r : Run) (ev : UIEvent) :
  Measure.no_pending_input r -> Measure.no_pending_input (step r ev).
Proof.
  intro Hr. unfold Shell.step. destruct (phase r) eqn:P; [|exact Hr].
  specialize (Hr P). destruct ev.
  - destruct (enter_binding (pt_cli (shell r))) as [cli' calls].
    destruct (Cli.return_value cli').
    + unfold Shell.finish_read. destruct (after_read _ _ _ _ _).
      apply loop_head_no_pending.
    + intros _. exact Hr.
  - intros _. exact Hr.
  - intros _. exact Hr.
  - unfold Shell.finish_read. destruct (after_read _ _ _ _ _).
    apply loop_head_no_pending.
  - unfold Shell.finish_read. destruct (after_read _ _ _ _ _).
    apply loop_head_no_pending.
Qed.

(** X15: in every run, while a read is open, [rl_next_input] holds no
    text: whatever was pending went into the buffer when the read
    started. *)
Theorem no_pending_input_while_reading (ready : bool) (events : list UIEvent)
        (sh : t) :
  let r := interact ready events sh in
  phase r = Prompting ->
  rl_next_input (shell r) = None \/ rl_next_input (shell r) = Some "".
Proof.
  cbv zeta. unfold Shell.interact. destruct ready; simpl.
  - generalize (loop_head_no_pending sh [WaitForKernel]).
    generalize (loop_head sh [WaitForKernel]).
    induction events as [|ev events IH]; intros r Hr; simpl.
    + exact Hr.
    + apply IH. now apply step_no_pending.
  - intro H. discriminate H.
Qed.

(** X16: Ctrl-C inside a read empties the buffer, keeps the read open and
    makes no call; an Enter right after it checks the empty text, and
    dispatches the empty text when the verdict for it is not [incomplete]
    and the buffer is returnable. *)
Theorem interrupt_discards_input (ready : bool) (events : list UIEvent)
        (sh : t) :
  let r := interact ready events sh in
  let r1 := step r Interrupt in
  let r2 := step r1 Enter in
  phase r = Prompting ->
  document_of r1 = Document.make "" 0
  /\ phase r1 = Prompting
  /\ log r1 = log r
  /\ checks (log r2) = checks (log r) ++ [""]
  /\ dispatches (log r2)
     = dispatches (log r)
       ++ (if negb (is_incomplete (fst (check_complete "")))
              && Cli.is_returnable (Cli.accept_action (buffer_of r))
           then [("", true)] else []).
Proof.
  intros r r1 r2 P.
  destruct (ShellFacts.interact_reading check_complete newline run_cell
              ready events sh P) as [_ V]. fold r in V.
  assert (E1 : r1 = mkRun (with_cli (interrupt_binding (pt_cli (shell r)))
                             (shell r)) Prompting (log r)).
  { unfold r1, Shell.step. rewrite P. reflexivity. }
  assert (E2 : r2 = step r1 Enter) by reflexivity.
  rewrite E1 in E2 |- *. simpl.
  split; [reflexivity | split; [reflexivity | split; [reflexivity|]]].
  rewrite E2, step_enter; [| reflexivity | exact V].
  unfold document_of, buffer_of. simpl.
  fold (buffer_of r).
  destruct (negb (is_incomplete (fst (check_complete "")))
            && Cli.is_returnable (Cli.accept_action (buffer_of r))).
  - unfold Shell.finish_read, after_read. rewrite loop_head_delta. simpl.
    rewrite !ShellFacts.dispatches_app, !ShellFacts.checks_app. simpl.
    match goal with
    | |- context [if keep_running ?x then _ else _] =>
        destruct (keep_running x)
    end; simpl; rewrite ?app_nil_r; split; reflexivity.
  - simpl. rewrite ShellFacts.dispatches_app, ShellFacts.checks_app.
    simpl. rewrite app_nil_r. split; reflexivity.
Qed.

(** X17: when Enter submits a cell and the kernel, while running it,
    clears [keep_running] (it called [ask_exit]), the loop ends right
    after the dispatch, with no further prompt, and later events change
    nothing; when [keep_running] stays set, the next read starts. *)
Theorem exit_requested_by_kernel (ready : bool) (events : list UIEvent)
        (sh : t) :
  let r := interact ready events sh in
  let d := document_of r in
  let l' := log r ++ [CheckComplete (Document.text d);
                      RunCell (Document.text d) true] in
  let sh' := run_cell l'
               (with_cli (Cli.set_return_value d (pt_cli (shell r))) (shell r)) in
  let r' := step r Enter in
  phase r = Prompting ->
  Measure.at_end_of_text d = true ->
  is_incomplete (fst (check_complete (Document.text d))) = false ->
  Cli.is_returnable (Cli.accept_action (buffer_of r)) = true ->
  (keep_running sh' = false ->
   r' = mkRun sh' Exiting l' /\ forall more, fold_left step more r' = r')
  /\ (keep_running sh' = true ->
      phase r' = Prompting /\ log r' = l' ++ [Stdout Py.nl; CliRun]).
Proof.
  intros r d l' sh' r' P G I R.
  destruct (ShellFacts.interact_reading check_complete newline run_cell
              ready events sh P) as [_ V]. fold r in V.
  assert (E : r' = loop_head sh' l').
  { unfold r'. rewrite (step_enter r P V). fold d. rewrite G, I, R. simpl.
    unfold Shell.finish_read, after_read, sh', l'.
    now rewrite <- app_assoc. }
  rewrite E. unfold loop_head. split; intro K; rewrite K.
  - split; [reflexivity|].
    intro more. now apply ShellFacts.exited_is_final.
  - split; reflexivity.
Qed.

(** X18: when [keep_running] is already false as [interact] starts, it
    waits for the kernel and returns: no separator, no prompt, no read,
    whatever happens at the terminal. *)
Theorem not_running_at_start (events : list UIEvent) (sh : t) :
  keep_running sh = false ->
  interact true events sh = mkRun sh Exiting [WaitForKernel].
Proof.
  intro K. unfold Shell.interact, loop_head. simpl. rewrite K.
  now apply ShellFacts.exited_is_final.
Qed.

(** X19: when a read ends without a document, nothing is dispatched and
    the loop prints the separator and starts the next read. *)
Theorem read_without_document (ready : bool) (events : list UIEvent)
        (sh : t) :
  let r := interact ready events sh in
  let r' := step r ReturnNone in
  phase r = Prompting ->
  phase r' = Prompting
  /\ log r' = log r ++ [Stdout Py.nl; CliRun]
  /\ dispatches (log r') = dispatches (log r).
Proof.
  intros r r' P.
  destruct (ShellFacts.interact_reading check_complete newline run_cell
              ready events sh P) as [K _]. fold r in K.
  unfold r', Shell.step. rewrite P.
  unfold Shell.finish_read, after_read, loop_head. rewrite K. simpl.
  split; [reflexivity | split; [reflexivity|]].
  rewrite ShellFacts.dispatches_app. simpl. now rewrite app_nil_r.
Qed.

End Collaborators.

End LoopMore.

(** ** Prompt tokens and style overrides *)

Module TokensMore.

Import Tokens.

Lemma shown_continuation_length (width : Z) :
  String.length (shown (get_continuation_tokens width))
  = Z.to_nat (width - 2) + 2.
Proof.
  unfold shown, get_continuation_tokens. simpl.
  rewrite !PyFacts.length_app, EnterMore.length_spaces_Z. simpl. lia.
Qed.

Lemma shown_prompt_length (execution_count : Z) :
  String.length (shown (get_prompt_tokens execution_count))
  = 7 + String.length (str execution_count).
Proof.
  unfold shown, get_prompt_tokens. simpl.
  rewrite !PyFacts.length_app. simpl. lia.
Qed.

(** X20: the continuation prompt for a width of at least 2 is exactly
    that wide; for a smaller width (zero and negative ones too) it is the
    two characters ": ". *)
Theorem continuation_prompt_width (width : Z) :
  Z.of_nat (String.length (shown (get_continuation_tokens width)))
  = Z.max width 2
  /\ ((width <= 2)%Z -> shown (get_continuation_tokens width) = ": ").
Proof.
  split.
  - rewrite shown_continuation_length. lia.
  - intro H. unfold shown, get_continuation_tokens, Py.spaces. simpl.
    replace (Z.to_nat (width - 2)) with 0 by lia. reflexivity.
Qed.

(** X21: for every execution count the prompt shows "In [", the count
    and "]: ", and the continuation prompt made for the width of that
    prompt is as wide as the prompt, so that the lines of a cell line
    up. *)
Theorem continuation_lines_up_with_prompt (execution_count : Z) :
  let prompt := shown (get_prompt_tokens execution_count) in
  prompt = ("In [" ++ str execution_count ++ "]: ")%string
  /\ String.length
       (shown (get_continuation_tokens (Z.of_nat (String.length prompt))))
     = String.length prompt.
Proof.
  cbv zeta. split; [reflexivity|].
  rewrite shown_continuation_length, shown_prompt_length. lia.
Qed.

End TokensMore.

Module StyleMore.

Import Style.

Lemma lookup_set_item (k k' : Tokens.Token) (v : string) (d : Dict) :
  lookup k (set_item k' v d)
  = if Tokens.eq_dec k k' then Some v else lookup k d.
Proof.
  induction d as [|[k1 v1] d IH]; simpl.
  - destruct (Tokens.eq_dec k k'); reflexivity.
  - destruct (Tokens.eq_dec k' k1) as [E1 | N1]; simpl.
    + subst k1. destruct (Tokens.eq_dec k k'); reflexivity.
    + destruct (Tokens.eq_dec k k1) as [E2 | N2].
      * subst k1. destruct (Tokens.eq_dec k k') as [E3 | _];
          [subst k'; contradiction | reflexivity].
      * exact IH.
Qed.

Lemma lookup_update_other (k : Tokens.Token) (other d : Dict) :
  ~ In k (keys other) -> lookup k (update d other) = lookup k d.
Proof.
  unfold update. revert d.
  induction other as [|[k1 v1] other IH]; intros d H; simpl in *.
  - reflexivity.
  - rewrite IH by tauto. rewrite lookup_set_item.
    destruct (Tokens.eq_dec k k1) as [E | _]; [|reflexivity].
    subst k1. tauto.
Qed.

Lemma lookup_update_given (k : Tokens.Token) (v : string) (other d : Dict) :
  NoDup (keys other) -> In (k, v) other ->
  lookup k (update d other) = Some v.
Proof.
  unfold update. revert d.
  induction other as [|[k1 v1] other IH]; intros d N H; simpl in *.
  - contradiction.
  - inversion N as [|? ? Hnotin N']. subst. destruct H as [E | H].
    + injection E as -> ->.
      change (fold_left _ other ?x) with (update x other).
      rewrite (lookup_update_other k other _ Hnotin), lookup_set_item.
      destruct (Tokens.eq_dec k k); [reflexivity | contradiction].
    + now apply IH.
Qed.

(** The overrides before the user's are applied. *)
Lemma style_setup_unfold (highlighting_style : string) (overrides : Dict) :
  style_setup highlighting_style overrides
  = (if Py.truthy highlighting_style then highlighting_style else "default",
     update
       ([ (Tokens.Prompt, "#009900"); (Tokens.PromptNum, "#00ff00 bold") ]
          ++ (if Py.truthy highlighting_style then []
              else default_theme_tweaks))
       overrides).
Proof.
  unfold style_setup. destruct (Py.truthy highlighting_style); reflexivity.
Qed.

(** X22: a style the user gives for a token in
    [highlighting_style_overrides] is the style of that token in the
    result, whatever the theme and the built-in overrides say. *)
Theorem user_override_wins (highlighting_style : string) (overrides : Dict)
        (k : Tokens.Token) (v : string) :
  NoDup (keys overrides) -> In (k, v) overrides ->
  lookup k (snd (style_setup highlighting_style overrides)) = Some v.
Proof.
  intros N H. rewrite style_setup_unfold. simpl.
  now apply lookup_update_given.
Qed.

(** X23: a token the user does not override keeps the built-in style:
    the two prompt colours always, and the tweaks of the default theme
    when no theme is named; with a named theme every other token has no
    override at all.  The theme asked for is the named one, or "default"
    when the name is empty. *)
Theorem builtin_overrides_kept (highlighting_style : string)
        (overrides : Dict) (k : Tokens.Token) :
  ~ In k (keys overrides) ->
  lookup k (snd (style_setup highlighting_style overrides))
  = lookup k
      ([ (Tokens.Prompt, "#009900"); (Tokens.PromptNum, "#00ff00 bold") ]
         ++ (if Py.truthy highlighting_style then []
             else default_theme_tweaks))
    /\ fst (style_setup highlighting_style overrides)
       = (if Py.truthy highlighting_style then highlighting_style
          else "default").
Proof.
  intro H. rewrite style_setup_unfold. simpl. split; [|reflexivity].
  now apply lookup_update_other.
Qed.

End StyleMore.

(** ** The further properties at concrete inputs *)

Module MoreExamples.

Import Shell.

(** Rows with a cell that ends in spaces and an empty cell. *)
Lemma preload_entries_stripped_at_a :
  In "a" (History.preload (History.rows_of ["a  "; ""]))
  /\ Py.rstrip "a" = "a".
Proof.
  assert (H : In "a" (History.preload (History.rows_of ["a  "; ""])))
    by (left; reflexivity).
  split; [exact H|].
  exact (proj1 (HistoryMore.preload_entries_stripped
                  (History.rows_of ["a  "; ""]) "a" H)).
Defined.

Lemma engine_called_inside_line_at_foo :
  Completer.cursor_pos (Completer.mkCall "foo" 3)
  <= String.length (Completer.line_buffer (Completer.mkCall "foo" 3)).
Proof.
  refine (proj2 (proj2 (CompleterMore.engine_called_inside_line
                          Samples.foo_engine (Document.make "foo" 3)
                          (Completer.mkCall "foo" 3) _))).
  left. reflexivity.
Defined.

Lemma one_line_text_completed_whole_at_foo :
  fst (Completer.get_completions Samples.foo_engine (Document.make "foo" 1))
  = [Completer.mkCall "foo" 1].
Proof.
  apply (CompleterMore.one_line_text_completed_whole
           Samples.foo_engine (Document.make "foo" 1)); reflexivity.
Defined.

(** The interface of a fresh shell holding [1+1], cursor at the end. *)
Lemma enter_at_end_of_text_is_checked_at_sum :
  snd (enter_binding (Samples.always Complete None) Cli.newline
         (Cli.mkCli (Cli.mkBuffer (Document.make "1+1" 3) Cli.RETURN_DOCUMENT)
            None))
  = [CheckComplete "1+1"].
Proof.
  apply (EnterMore.enter_at_end_of_text_is_checked
           (Samples.always Complete None) Cli.newline
           (Cli.mkCli (Cli.mkBuffer (Document.make "1+1" 3) Cli.RETURN_DOCUMENT)
              None)).
  simpl. lia.
Defined.

Lemma enter_submits_iff_at_sum :
  Cli.return_value
    (fst (enter_binding (Samples.always Complete None)
            Cli.newline
            (Cli.mkCli
               (Cli.mkBuffer (Document.make "1+1" 3) Cli.RETURN_DOCUMENT)
               None)))
  <> None.
Proof.
  apply (proj1 (EnterMore.enter_submits_iff
                  (Samples.always Complete None) Cli.newline
                  (Cli.mkCli
                     (Cli.mkBuffer (Document.make "1+1" 3) Cli.RETURN_DOCUMENT)
                     None) eq_refl)).
  repeat split.
Defined.

(** A buffer without handler holding [if x:], suggested indent 4. *)
Lemma enter_indents_by_suggestion_at_if :
  Document.text
    (Cli.document
       (Cli.current_buffer
          (fst (enter_binding (Samples.always Incomplete (Some 4%Z))
                  Cli.newline
                  (Cli.mkCli
                     (Cli.mkBuffer (Document.make "if x:" 5) Cli.IGNORE)
                     None)))))
  = ("if x:" ++ Py.nl ++ "    ")%string.
Proof.
  exact (proj1 (EnterMore.enter_indents_by_suggestion
                  (Samples.always Incomplete (Some 4%Z))
                  Cli.newline
                  (Cli.mkCli
                     (Cli.mkBuffer (Document.make "if x:" 5) Cli.IGNORE)
                     None) eq_refl (or_introl eq_refl))).
Defined.

Lemma no_pending_input_while_reading_at_sum :
  rl_next_input (shell Samples.typed_sum) = None
  \/ rl_next_input (shell Samples.typed_sum) = Some "".
Proof.
  exact (LoopMore.no_pending_input_while_reading
           (Samples.always Complete None) Cli.newline
           Samples.quiet_kernel true [Edit (Document.make "1+1" 3)] init
           eq_refl).
Defined.

Lemma interrupt_discards_input_at_sum :
  document_of (step (Samples.always Complete None) Cli.newline
                 Samples.quiet_kernel Samples.typed_sum Interrupt)
  = Document.make "" 0.
Proof.
  exact (proj1 (LoopMore.interrupt_discards_input
                  (Samples.always Complete None) Cli.newline
                  Samples.quiet_kernel true [Edit (Document.make "1+1" 3)]
                  init eq_refl)).
Defined.

(** The user typed [1+1] and the kernel asks to exit after the cell. *)
Lemma exit_requested_by_kernel_at_sum :
  phase (step (Samples.always Complete None) Cli.newline
           Samples.exiting_kernel
           (interact (Samples.always Complete None) Cli.newline
              Samples.exiting_kernel true [Edit (Document.make "1+1" 3)] init)
           Enter)
  = Exiting.
Proof.
  pose proof (LoopMore.exit_requested_by_kernel
                (Samples.always Complete None) Cli.newline
                Samples.exiting_kernel true [Edit (Document.make "1+1" 3)]
                init eq_refl eq_refl eq_refl eq_refl) as H.
  destruct H as [H _]. destruct (H eq_refl) as [E _].
  exact (f_equal phase E).
Defined.

Lemma not_running_at_start_after_ask_exit :
  interact (Samples.always Complete None) Cli.newline
    Samples.quiet_kernel true [Enter; EndOfInput false] (ask_exit init)
  = mkRun (ask_exit init) Exiting [WaitForKernel].
Proof.
  exact (LoopMore.not_running_at_start
           (Samples.always Complete None) Cli.newline
           Samples.quiet_kernel [Enter; EndOfInput false] (ask_exit init)
           eq_refl).
Defined.

Lemma read_without_document_at_sum :
  phase (step (Samples.always Complete None) Cli.newline
           Samples.quiet_kernel Samples.typed_sum ReturnNone)
  = Prompting.
Proof.
  exact (proj1 (LoopMore.read_without_document
                  (Samples.always Complete None) Cli.newline
                  Samples.quiet_kernel true [Edit (Document.make "1+1" 3)]
                  init eq_refl)).
Defined.

(** The user styles numbers red, with no theme named. *)
Lemma user_override_wins_at_number :
  Style.lookup Tokens.Number
    (snd (Style.style_setup "" [(Tokens.Number, "red")]))
  = Some "red".
Proof.
  apply (StyleMore.user_override_wins "" [(Tokens.Number, "red")]
           Tokens.Number "red").
  - constructor; [intros [] | constructor].
  - left. reflexivity.
Defined.

Lemma builtin_overrides_kept_at_prompt :
  Style.lookup Tokens.Prompt
    (snd (Style.style_setup "monokai" [(Tokens.Number, "red")]))
  = Some "#009900".
Proof.
  refine (proj1 (StyleMore.builtin_overrides_kept "monokai"
                   [(Tokens.Number, "red")] Tokens.Prompt _)).
  intros [H | []]. discriminate H.
Defined.

End MoreExamples.
